(** * simple-todo: the update and delete handlers, the todo view and the theme toggle

    A shallow embedding of
    - [server/src/handlers/update_todo.ts] and [server/src/handlers/delete_todo.ts],
    - [client/src/App.tsx] (the [TodoApp] component: state, event handlers, render),
    - [client/src/components/ThemeToggle.tsx],
    followed by the properties the specification states about them.

    Conventions.
    - A JavaScript string is the list of its UTF-16 code units.
    - A [Date] is its time value, the number of milliseconds since the epoch.
    - A promise is modelled by what it settles to ([Resolved] or [Rejected]).
    - The SQL statements the handlers issue through drizzle are modelled on a
      table that is the list of its rows.
    - An [async] event handler of the view is a [task]: the state updates and
      console output it performs, cut at every [await]. *)

From Stdlib Require Import ZArith NArith List Bool String Ascii Lia.
From Stdlib Require Decimal DecimalZ.
Import ListNotations.
Open Scope Z_scope.

Set Implicit Arguments.

(* ================================================================== *)
(** * JavaScript values *)

(** [T | undefined]: an optional property of an object. *)
Inductive optional (A : Type) : Type :=
| undefined
| defined (a : A).
Arguments undefined {A}.

(** [T | null] *)
Inductive nullable (A : Type) : Type :=
| null
| value (a : A).
Arguments null {A}.

Definition char16 := N.
Definition jsstring := list char16.

(** A string literal of the source (the literals used are ASCII). *)
Definition lit (s : string) : jsstring :=
  List.map N_of_ascii (list_ascii_of_string s).

(** Truthiness of a string: [''] is the only falsy string. *)
Definition truthy (s : jsstring) : bool :=
  match s with
  | [] => false
  | _ :: _ => true
  end.

(** [s || null] and [d || ''] as the two textareas use them. *)
Definition or_null (s : jsstring) : nullable jsstring :=
  if truthy s then value s else null.

Definition or_empty (d : nullable jsstring) : jsstring :=
  match d with
  | value s => if truthy s then s else []
  | null => []
  end.

Definition optional_or_empty (d : optional (nullable jsstring)) : jsstring :=
  match d with
  | defined d' => or_empty d'
  | undefined => []
  end.

(** ECMAScript WhiteSpace and LineTerminator code points, the ones
    [String.prototype.trim] strips. *)
Definition isWhiteSpace (c : char16) : bool :=
  (existsb (N.eqb c)
     [9; 10; 11; 12; 13; 32; 160; 5760; 8232; 8233; 8239; 8287; 12288; 65279]
   || ((8192 <=? c) && (c <=? 8202)))%N.

Fixpoint trimStart (s : jsstring) : jsstring :=
  match s with
  | [] => []
  | c :: s' => if isWhiteSpace c then trimStart s' else s
  end.

Definition trimEnd (s : jsstring) : jsstring := List.rev (trimStart (List.rev s)).

Definition trim (s : jsstring) : jsstring := trimEnd (trimStart s).

(** Decimal digits of an integer, as template-literal interpolation and
    [Number.prototype.toString] print an integral number (below 1e21 in
    magnitude, which covers every row id). *)
Fixpoint uint_units (d : Decimal.uint) : jsstring :=
  match d with
  | Decimal.Nil => []
  | Decimal.D0 d => 48%N :: uint_units d
  | Decimal.D1 d => 49%N :: uint_units d
  | Decimal.D2 d => 50%N :: uint_units d
  | Decimal.D3 d => 51%N :: uint_units d
  | Decimal.D4 d => 52%N :: uint_units d
  | Decimal.D5 d => 53%N :: uint_units d
  | Decimal.D6 d => 54%N :: uint_units d
  | Decimal.D7 d => 55%N :: uint_units d
  | Decimal.D8 d => 56%N :: uint_units d
  | Decimal.D9 d => 57%N :: uint_units d
  end.

Definition int_units (d : Decimal.int) : jsstring :=
  match d with
  | Decimal.Pos u => uint_units u
  | Decimal.Neg u => 45%N :: uint_units u
  end.

Definition Number_toString (n : Z) : jsstring := int_units (Z.to_int n).

(** An [Error] object: only its message is observed. *)
Record Error : Type := mkError { message : jsstring }.

(** What a promise settles to. *)
Inductive outcome (A : Type) : Type :=
| Resolved (a : A)
| Rejected (e : Error).
Arguments Rejected {A} e.

(** One [console.error(label, error)] line. *)
Definition console_line : Type := jsstring * Error.

(* ================================================================== *)
(** * The data contract (server/src/schema) *)

(** A [Date], as its time value in milliseconds. *)
Definition Date := Z.

Module Todo.
Record t : Type := mk {
  id : Z;
  title : jsstring;
  description : nullable jsstring;
  completed : bool;
  created_at : Date;
  updated_at : Date
}.
End Todo.

Module CreateTodoInput.
Record t : Type := mk {
  title : jsstring;
  description : optional (nullable jsstring)
}.
End CreateTodoInput.

Module UpdateTodoInput.
Record t : Type := mk {
  id : Z;
  title : optional jsstring;
  description : optional (nullable jsstring);
  completed : optional bool
}.
End UpdateTodoInput.

Module DeleteTodoInput.
Record t : Type := mk { id : Z }.
End DeleteTodoInput.

Module DeleteResult.
Record t : Type := mk { success : bool }.
End DeleteResult.

(* ================================================================== *)
(** * The store *)

(** The rows of [todosTable]. *)
Definition Table := list Todo.t.

(** [id] is the primary key of the table: no two rows share one. *)
Definition primary_key (tbl : Table) : Prop := NoDup (List.map Todo.id tbl).

(** [eq(todosTable.id, i)] *)
Definition eq_id (i : Z) (row : Todo.t) : bool := (Todo.id row =? i).

(** The object handed to [.set(...)]: a column appears in it only when the
    handler has assigned it. *)
Module UpdateValues.
Record t : Type := mk {
  title : optional jsstring;
  description : optional (nullable jsstring);
  completed : optional bool;
  updated_at : optional Date
}.
Definition empty : t := mk undefined undefined undefined undefined.
Definition set_title (v : jsstring) (u : t) : t :=
  mk (defined v) (description u) (completed u) (updated_at u).
Definition set_description (v : nullable jsstring) (u : t) : t :=
  mk (title u) (defined v) (completed u) (updated_at u).
Definition set_completed (v : bool) (u : t) : t :=
  mk (title u) (description u) (defined v) (updated_at u).
Definition set_updated_at (v : Date) (u : t) : t :=
  mk (title u) (description u) (completed u) (defined v).
End UpdateValues.

Definition or_else {A : Type} (o : optional A) (old : A) : A :=
  match o with
  | defined v => v
  | undefined => old
  end.

(** The effect of [SET] on one row: the assigned columns are overwritten, the
    other columns keep their value. *)
Definition assign (u : UpdateValues.t) (row : Todo.t) : Todo.t :=
  Todo.mk (Todo.id row)
          (or_else (UpdateValues.title u) (Todo.title row))
          (or_else (UpdateValues.description u) (Todo.description row))
          (or_else (UpdateValues.completed u) (Todo.completed row))
          (Todo.created_at row)
          (or_else (UpdateValues.updated_at u) (Todo.updated_at row)).

(** [db.update(t).set(u).where(w).returning().execute()]: the rows that satisfy
    [w] are rewritten in place; the rewritten rows are returned. *)
Definition db_update (u : UpdateValues.t) (w : Todo.t -> bool) (tbl : Table)
  : list Todo.t * Table :=
  (List.map (assign u) (List.filter w tbl),
   List.map (fun row => if w row then assign u row else row) tbl).

(** [db.delete(t).where(w).returning().execute()]: the rows that satisfy [w]
    are removed and returned. *)
Definition db_delete (w : Todo.t -> bool) (tbl : Table) : list Todo.t * Table :=
  (List.filter w tbl, List.filter (fun row => negb (w row)) tbl).

(* ================================================================== *)
(** * The request handlers *)

(** What a handler sees and changes: the table and the server console. *)
Record Server : Type := mkServer {
  todosTable : Table;
  serverConsole : list console_line
}.

(** A handler is a computation on the server that settles. *)
Definition Handler (A : Type) : Type := Server -> outcome A * Server.

Definition ret {A : Type} (a : A) : Handler A := fun s => (Resolved a, s).

Definition throw {A : Type} (e : Error) : Handler A := fun s => (Rejected e, s).

Definition bind {A B : Type} (m : Handler A) (k : A -> Handler B) : Handler B :=
  fun s =>
    match m s with
    | (Resolved a, s') => k a s'
    | (Rejected e, s') => (Rejected e, s')
    end.

Notation "x <- m ;; k" := (bind m (fun x => k))
  (at level 61, m at next level, right associativity).

(** [try { body } catch (error) { handler }] *)
Definition try_catch {A : Type} (body : Handler A) (handler : Error -> Handler A)
  : Handler A :=
  fun s =>
    match body s with
    | (Resolved a, s') => (Resolved a, s')
    | (Rejected e, s') => handler e s'
    end.

Definition console_error (label : jsstring) (e : Error) : Handler unit :=
  fun s => (Resolved tt, mkServer (todosTable s) (serverConsole s ++ [(label, e)])).

(** A statement run against the table.  Failures of the store itself (lost
    connection and the like) are outside the model: a statement always runs. *)
Definition execute {A : Type} (stmt : Table -> A * Table) : Handler A :=
  fun s =>
    let (a, tbl) := stmt (todosTable s) in
    (Resolved a, mkServer tbl (serverConsole s)).

(** The message of the error [updateTodo] throws. *)
Definition not_found_message (i : Z) : jsstring :=
  lit "Todo with id " ++ Number_toString i ++ lit " not found".

(** [updateTodo]; [now] is what [new Date()] reads during the call. *)
Definition updateTodo (now : Date) (input : UpdateTodoInput.t) : Handler Todo.t :=
  try_catch
    (let updateValues := UpdateValues.empty in
     let updateValues :=
       match UpdateTodoInput.title input with
       | defined v => UpdateValues.set_title v updateValues
       | undefined => updateValues
       end in
     let updateValues :=
       match UpdateTodoInput.description input with
       | defined v => UpdateValues.set_description v updateValues
       | undefined => updateValues
       end in
     let updateValues :=
       match UpdateTodoInput.completed input with
       | defined v => UpdateValues.set_completed v updateValues
       | undefined => updateValues
       end in
     let updateValues := UpdateValues.set_updated_at now updateValues in
     result <- execute (db_update updateValues (eq_id (UpdateTodoInput.id input))) ;;
     match result with
     | [] => throw (mkError (not_found_message (UpdateTodoInput.id input)))
     | row :: _ => ret row
     end)
    (fun error =>
       _ <- console_error (lit "Todo update failed:") error ;;
       throw error).

(** [deleteTodo] *)
Definition deleteTodo (input : DeleteTodoInput.t) : Handler DeleteResult.t :=
  try_catch
    (result <- execute (db_delete (eq_id (DeleteTodoInput.id input))) ;;
     ret (DeleteResult.mk (0 <? Z.of_nat (List.length result))))
    (fun error =>
       _ <- console_error (lit "Todo deletion failed:") error ;;
       throw error).

(** What the specification asks of an update (spec 3 and 4.3), written from
    its words: each field present in the input replaces the row's, each field
    not present is left unchanged, id and [created_at] are never modified, and
    [updated_at] is reset to the current time. *)
Definition updated_row (now : Date) (input : UpdateTodoInput.t) (row : Todo.t) : Todo.t :=
  Todo.mk (Todo.id row)
          (match UpdateTodoInput.title input with
           | defined v => v
           | undefined => Todo.title row
           end)
          (match UpdateTodoInput.description input with
           | defined v => v
           | undefined => Todo.description row
           end)
          (match UpdateTodoInput.completed input with
           | defined v => v
           | undefined => Todo.completed row
           end)
          (Todo.created_at row)
          now.

(** The rows and inputs of the handler test suites. *)
Definition original_row : Todo.t :=
  Todo.mk 1 (lit "Original Title") (value (lit "Original description")) false 1000 1000.

Definition title_only_input : UpdateTodoInput.t :=
  UpdateTodoInput.mk 1 (defined (lit "Updated Title")) undefined undefined.

Definition description_null_input : UpdateTodoInput.t :=
  UpdateTodoInput.mk 1 undefined (defined null) undefined.

Definition missing_id_input : UpdateTodoInput.t :=
  UpdateTodoInput.mk 999999 (defined (lit "Updated Title")) undefined undefined.

(* ================================================================== *)
(** * The theme toggle (client/src/components/ThemeToggle.tsx) *)

Inductive Theme : Type :=
| light
| dark.

Inductive Icon : Type :=
| Moon
| Sun.

(** What the button shows: its [title] attribute and its icon. *)
Record ThemeToggleView : Type := mkThemeToggleView {
  buttonTitle : jsstring;
  icon : Icon
}.

Definition theme_eqb (a b : Theme) : bool :=
  match a, b with
  | light, light => true
  | dark, dark => true
  | _, _ => false
  end.

(** The [ThemeToggle] component, given the [theme] that [useTheme()] returns.
    Its [onClick] is the provider's [toggleTheme]. *)
Definition ThemeToggle (theme : Theme) : ThemeToggleView :=
  mkThemeToggleView
    (lit "Switch to "
       ++ (if theme_eqb theme light then lit "dark" else lit "light")
       ++ lit " mode")
    (if theme_eqb theme light then Moon else Sun).

(** The name of a mode as the button's title spells it, and the icon that
    stands for a mode. *)
Definition mode_name (t : Theme) : jsstring :=
  match t with
  | light => lit "light"
  | dark => lit "dark"
  end.

Definition mode_icon (t : Theme) : Icon :=
  match t with
  | light => Sun
  | dark => Moon
  end.

(** Modelled from the spec: the Theme Provider ([ThemeProvider.tsx], with
    [useTheme] and [toggleTheme], is not among the sources).  Spec 4.6: two
    states; the initial state is resolved once at startup from a previously
    persisted preference if one exists, otherwise light; the only transition is
    toggle, which flips the current state and persists the new value for
    future sessions. *)
Record ThemeSession : Type := mkThemeSession {
  theme : Theme;
  persisted : option Theme
}.

Definition flip_theme (t : Theme) : Theme :=
  match t with
  | light => dark
  | dark => light
  end.

Definition startSession (stored : option Theme) : ThemeSession :=
  mkThemeSession
    (match stored with
     | Some t => t
     | None => light
     end)
    stored.

Definition toggleTheme (s : ThemeSession) : ThemeSession :=
  mkThemeSession (flip_theme (theme s)) (Some (flip_theme (theme s))).

(* ================================================================== *)
(** * The todo view (client/src/App.tsx): state *)

Module EditFormData.
Record t : Type := mk {
  title : jsstring;
  description : nullable jsstring
}.
End EditFormData.

(** The five [useState] cells of the component. *)
Record ViewState : Type := mkViewState {
  todos : list Todo.t;
  isLoading : bool;
  editingTodo : nullable Todo.t;
  formData : CreateTodoInput.t;
  editFormData : EditFormData.t
}.

Definition initialState : ViewState :=
  mkViewState [] false null
    (CreateTodoInput.mk [] (defined null))
    (EditFormData.mk [] null).

(** The state setters; each takes an updater, a plain value [v] being the
    updater [fun _ => v]. *)
Definition setTodos (f : list Todo.t -> list Todo.t) (s : ViewState) : ViewState :=
  mkViewState (f (todos s)) (isLoading s) (editingTodo s) (formData s) (editFormData s).

Definition setIsLoading (v : bool) (s : ViewState) : ViewState :=
  mkViewState (todos s) v (editingTodo s) (formData s) (editFormData s).

Definition setEditingTodo (v : nullable Todo.t) (s : ViewState) : ViewState :=
  mkViewState (todos s) (isLoading s) v (formData s) (editFormData s).

Definition setFormData (f : CreateTodoInput.t -> CreateTodoInput.t) (s : ViewState)
  : ViewState :=
  mkViewState (todos s) (isLoading s) (editingTodo s) (f (formData s)) (editFormData s).

Definition setEditFormData (f : EditFormData.t -> EditFormData.t) (s : ViewState)
  : ViewState :=
  mkViewState (todos s) (isLoading s) (editingTodo s) (formData s) (f (editFormData s)).

(* ================================================================== *)
(** * The todo view: remote procedures and tasks *)

(** The four procedures of the [trpc] client, indexed by what they resolve to. *)
Inductive rpc : Type -> Type :=
| getTodos_query : rpc (list Todo.t)
| createTodo_mutate (input : CreateTodoInput.t) : rpc Todo.t
| updateTodo_mutate (input : UpdateTodoInput.t) : rpc Todo.t
| deleteTodo_mutate (input : DeleteTodoInput.t) : rpc DeleteResult.t.

(** The body of an event handler.  [SetState f] is a call of a state setter,
    [Await call k] is [await trpc.<call>] followed by the rest of the handler:
    [k (Resolved r)] is the code after the [await], [k (Rejected e)] the
    [catch] block. *)
Inductive task : Type :=
| Done
| SetState (f : ViewState -> ViewState) (k : task)
| ConsoleError (label : jsstring) (e : Error) (k : task)
| Await (R : Type) (call : rpc R) (k : outcome R -> task).

(** [loadTodos], called once on mount by [useEffect]. *)
Definition loadTodos_then (o : outcome (list Todo.t)) : task :=
  match o with
  | Resolved result => SetState (setTodos (fun _ => result)) Done
  | Rejected error => ConsoleError (lit "Failed to load todos:") error Done
  end.

Definition loadTodos : task := Await getTodos_query loadTodos_then.

(** [handleSubmit]; [st] is the state of the render whose handler runs. *)
Definition handleSubmit (st : ViewState) : task :=
  if negb (truthy (trim (CreateTodoInput.title (formData st)))) then Done
  else
    SetState (setIsLoading true)
      (Await (createTodo_mutate (formData st)) (fun o =>
         match o with
         | Resolved response =>
             SetState (setTodos (fun prev => prev ++ [response]))
               (SetState (setFormData (fun _ => CreateTodoInput.mk [] (defined null)))
                  (SetState (setIsLoading false) Done))
         | Rejected error =>
             ConsoleError (lit "Failed to create todo:") error
               (SetState (setIsLoading false) Done)
         end)).

(** [handleToggleComplete] *)
Definition handleToggleComplete (todo : Todo.t) : task :=
  let updateData :=
    UpdateTodoInput.mk (Todo.id todo) undefined undefined
                       (defined (negb (Todo.completed todo))) in
  Await (updateTodo_mutate updateData) (fun o =>
    match o with
    | Resolved response =>
        SetState
          (setTodos (List.map (fun t =>
             if Todo.id t =? Todo.id todo then response else t)))
          Done
    | Rejected error => ConsoleError (lit "Failed to toggle todo:") error Done
    end).

(** [handleDelete] *)
Definition handleDelete (todoId : Z) : task :=
  Await (deleteTodo_mutate (DeleteTodoInput.mk todoId)) (fun o =>
    match o with
    | Resolved _ =>
        SetState (setTodos (List.filter (fun t => negb (Todo.id t =? todoId)))) Done
    | Rejected error => ConsoleError (lit "Failed to delete todo:") error Done
    end).

(** [startEdit] *)
Definition startEdit (todo : Todo.t) : task :=
  SetState (setEditingTodo (value todo))
    (SetState
       (setEditFormData (fun _ =>
          EditFormData.mk (Todo.title todo) (Todo.description todo)))
       Done).

(** [handleEditSubmit] *)
Definition handleEditSubmit (st : ViewState) : task :=
  match editingTodo st with
  | null => Done
  | value editing =>
      if negb (truthy (trim (EditFormData.title (editFormData st)))) then Done
      else
        let updateData :=
          UpdateTodoInput.mk (Todo.id editing)
            (defined (EditFormData.title (editFormData st)))
            (defined (EditFormData.description (editFormData st)))
            undefined in
        Await (updateTodo_mutate updateData) (fun o =>
          match o with
          | Resolved response =>
              SetState
                (setTodos (List.map (fun t =>
                   if Todo.id t =? Todo.id editing then response else t)))
                (SetState (setEditingTodo null)
                   (SetState (setEditFormData (fun _ => EditFormData.mk [] null))
                      Done))
          | Rejected error =>
              ConsoleError (lit "Failed to update todo:") error Done
          end)
  end.

(** [cancelEdit] *)
Definition cancelEdit : task :=
  SetState (setEditingTodo null)
    (SetState (setEditFormData (fun _ => EditFormData.mk [] null)) Done).

(** The four [onChange] handlers; [v] is [e.target.value]. *)
Definition onChangeTitle (v : jsstring) : task :=
  SetState
    (setFormData (fun prev => CreateTodoInput.mk v (CreateTodoInput.description prev)))
    Done.

Definition onChangeDescription (v : jsstring) : task :=
  SetState
    (setFormData (fun prev =>
       CreateTodoInput.mk (CreateTodoInput.title prev) (defined (or_null v))))
    Done.

Definition onChangeEditTitle (v : jsstring) : task :=
  SetState
    (setEditFormData (fun prev => EditFormData.mk v (EditFormData.description prev)))
    Done.

Definition onChangeEditDescription (v : jsstring) : task :=
  SetState
    (setEditFormData (fun prev => EditFormData.mk (EditFormData.title prev) (or_null v)))
    Done.

(* ================================================================== *)
(** * The todo view: render *)

Record Counters : Type := mkCounters {
  totalBadge : Z;
  completedBadge : Z;
  remainingBadge : Z
}.

(** One card of the list: the inline edit form, or the todo on display with
    its checkbox and, when the description is truthy, its paragraph. *)
Inductive Card : Type :=
| EditForm (todo : Todo.t) (titleValue descriptionValue : jsstring)
| Display (todo : Todo.t) (checked : bool) (paragraph : option jsstring).

Inductive TodoList : Type :=
| NoTodosYet
| Cards (cards : list Card).

Record Rendered : Type := mkRendered {
  counters : option Counters;
  titleInput : jsstring;
  descriptionInput : jsstring;
  submitDisabled : bool;
  todoList : TodoList
}.

Definition completedCount (st : ViewState) : Z :=
  Z.of_nat (List.length (List.filter Todo.completed (todos st))).

Definition totalCount (st : ViewState) : Z :=
  Z.of_nat (List.length (todos st)).

(** [editingTodo?.id === todo.id] *)
Definition is_editing (st : ViewState) (todo : Todo.t) : bool :=
  match editingTodo st with
  | value editing => Todo.id editing =? Todo.id todo
  | null => false
  end.

Definition card (st : ViewState) (todo : Todo.t) : Card :=
  if is_editing st todo then
    EditForm todo (EditFormData.title (editFormData st))
             (or_empty (EditFormData.description (editFormData st)))
  else
    Display todo (Todo.completed todo)
            (match Todo.description todo with
             | value d => if truthy d then Some d else None
             | null => None
             end).

Definition render (st : ViewState) : Rendered :=
  mkRendered
    (if 0 <? totalCount st
     then Some (mkCounters (totalCount st) (completedCount st)
                           (totalCount st - completedCount st))
     else None)
    (CreateTodoInput.title (formData st))
    (optional_or_empty (CreateTodoInput.description (formData st)))
    (isLoading st)
    (if Z.of_nat (List.length (todos st)) =? 0
     then NoTodosYet
     else Cards (List.map (card st) (todos st))).

(* ================================================================== *)
(** * The todo view: running tasks *)

(** The page: the component state and the browser console. *)
Record Page : Type := mkPage {
  view : ViewState;
  console : list console_line
}.

(** A handler stopped at an [await]: the call it made and the rest of it. *)
Inductive suspended : Type :=
| Suspended (R : Type) (call : rpc R) (k : outcome R -> task).

(** A call that went out. *)
Inductive request : Type :=
| Request (R : Type) (call : rpc R).

(** Run a task up to its next [await]. *)
Fixpoint run (t : task) (p : Page) : Page * option suspended :=
  match t with
  | Done => (p, None)
  | SetState f k => run k (mkPage (f (view p)) (console p))
  | ConsoleError label e k => run k (mkPage (view p) (console p ++ [(label, e)]))
  | Await call k => (p, Some (Suspended call k))
  end.

(** Run a task to its end with no other event in between, every call being
    answered by [answer]; the calls made are collected in order. *)
Fixpoint complete (answer : forall R : Type, rpc R -> outcome R) (t : task) (p : Page)
  : Page * list request :=
  match t with
  | Done => (p, [])
  | SetState f k => complete answer k (mkPage (f (view p)) (console p))
  | ConsoleError label e k =>
      complete answer k (mkPage (view p) (console p ++ [(label, e)]))
  | Await call k =>
      let (p', calls) := complete answer (k (answer _ call)) p in
      (p', Request call :: calls)
  end.

(* ================================================================== *)
(** * The todo view: the event loop *)

(** What the user can do to the rendered page. *)
Inductive ui_event : Type :=
| TitleChange (v : jsstring)
| DescriptionChange (v : jsstring)
| FormSubmit
| CheckedChange (todo : Todo.t)
| EditClick (todo : Todo.t)
| DeleteConfirm (todo : Todo.t)
| EditTitleChange (v : jsstring)
| EditDescriptionChange (v : jsstring)
| EditFormSubmit
| CancelClick.

(** The handler the render of state [st] attaches to each event. *)
Definition handler (st : ViewState) (ev : ui_event) : task :=
  match ev with
  | TitleChange v => onChangeTitle v
  | DescriptionChange v => onChangeDescription v
  | FormSubmit => handleSubmit st
  | CheckedChange todo => handleToggleComplete todo
  | EditClick todo => startEdit todo
  | DeleteConfirm todo => handleDelete (Todo.id todo)
  | EditTitleChange v => onChangeEditTitle v
  | EditDescriptionChange v => onChangeEditDescription v
  | EditFormSubmit => handleEditSubmit st
  | CancelClick => cancelEdit
  end.

Definition is_display_of (todo : Todo.t) (c : Card) : Prop :=
  match c with
  | Display todo' _ _ => todo' = todo
  | EditForm _ _ _ => False
  end.

Definition is_edit_form (c : Card) : Prop :=
  match c with
  | EditForm _ _ _ => True
  | Display _ _ _ => False
  end.

Definition shows (r : Rendered) (P : Card -> Prop) : Prop :=
  match todoList r with
  | Cards cards => exists c, In c cards /\ P c
  | NoTodosYet => False
  end.

(** The events a rendered page offers: the add form is always there, its
    submit control only while enabled; checkbox, edit and delete belong to a
    card on display; the edit controls belong to a card in edit mode. *)
Definition offers (r : Rendered) (ev : ui_event) : Prop :=
  match ev with
  | TitleChange _ | DescriptionChange _ => True
  | FormSubmit => submitDisabled r = false
  | CheckedChange todo | EditClick todo | DeleteConfirm todo =>
      shows r (is_display_of todo)
  | EditTitleChange _ | EditDescriptionChange _ | EditFormSubmit | CancelClick =>
      shows r is_edit_form
  end.

(** The page together with the handlers waiting for an answer and the log of
    the calls sent so far. *)
Record Browser : Type := mkBrowser {
  page : Page;
  inflight : list suspended;
  sent : list request
}.

(** Start (or continue) a task on the page; if it stops at an [await] the call
    goes out and the rest of the task waits. *)
Definition request_of (s : suspended) : request :=
  match s with
  | Suspended call _ => Request call
  end.

Definition dispatch (t : task) (b : Browser) : Browser :=
  match run t (page b) with
  | (p, None) => mkBrowser p (inflight b) (sent b)
  | (p, Some s) => mkBrowser p (inflight b ++ [s]) (sent b ++ [request_of s])
  end.

(** The user event [ev] on the page as rendered. *)
Definition fire (ev : ui_event) (b : Browser) : Browser :=
  dispatch (handler (view (page b)) ev) b.

(** The component as mounted: initial state, [loadTodos] started. *)
Definition mounted : Browser :=
  dispatch loadTodos (mkBrowser (mkPage initialState []) [] []).

Section EventLoop.

(** What the server may answer to a call. *)
Variable delivers : forall R : Type, rpc R -> outcome R -> Prop.

(** One turn of the event loop: a user event runs its handler up to the first
    [await], or one waiting call is answered and its handler continues. *)
Inductive step : Browser -> Browser -> Prop :=
| step_event (b : Browser) (ev : ui_event) :
    offers (render (view (page b))) ev ->
    step b (fire ev b)
| step_answer (b : Browser) (pre post : list suspended)
              (R : Type) (call : rpc R) (k : outcome R -> task) (o : outcome R) :
    inflight b = pre ++ Suspended call k :: post ->
    delivers call o ->
    step b (dispatch (k o) (mkBrowser (page b) (pre ++ post) (sent b))).

Inductive reachable : Browser -> Prop :=
| reachable_mounted : reachable mounted
| reachable_step (b b' : Browser) : reachable b -> step b b' -> reachable b'.

End EventLoop.

(** A server that may answer anything. *)
Definition any_answer (R : Type) (call : rpc R) (o : outcome R) : Prop := True.

(** The description a call carries, if it carries one. *)
Definition sent_description (r : request) : optional (nullable jsstring) :=
  match r with
  | Request call =>
      match call with
      | getTodos_query => undefined
      | createTodo_mutate input => CreateTodoInput.description input
      | updateTodo_mutate input => UpdateTodoInput.description input
      | deleteTodo_mutate _ => undefined
      end
  end.

(** A todo whose description is the empty string. *)
Definition empty_description (todo : Todo.t) : Prop :=
  Todo.description todo = value [].

(** Answers in which no todo has the empty string as its description. *)
Definition no_empty_description (R : Type) (call : rpc R) : outcome R -> Prop :=
  match call in rpc R return outcome R -> Prop with
  | getTodos_query => fun o =>
      match o with
      | Resolved result => forall todo, In todo result -> ~ empty_description todo
      | Rejected _ => True
      end
  | createTodo_mutate _ => fun o =>
      match o with
      | Resolved response => ~ empty_description response
      | Rejected _ => True
      end
  | updateTodo_mutate _ => fun o =>
      match o with
      | Resolved response => ~ empty_description response
      | Rejected _ => True
      end
  | deleteTodo_mutate _ => fun _ => True
  end.

(* ================================================================== *)
(** * The todo view: invariants of the event loop *)

(** A task keeps [good_view] and sends only [good_request]s, as long as its
    calls are answered within [delivers]. *)
Fixpoint task_keeps (delivers : forall R : Type, rpc R -> outcome R -> Prop)
         (good_view : ViewState -> Prop) (good_request : request -> Prop)
         (t : task) : Prop :=
  match t with
  | Done => True
  | SetState f k =>
      (forall st, good_view st -> good_view (f st))
      /\ task_keeps delivers good_view good_request k
  | ConsoleError _ _ k => task_keeps delivers good_view good_request k
  | Await call k =>
      good_request (Request call)
      /\ (forall o, delivers _ call o ->
                   task_keeps delivers good_view good_request (k o))
  end.

Definition suspended_keeps (delivers : forall R : Type, rpc R -> outcome R -> Prop)
           (good_view : ViewState -> Prop) (good_request : request -> Prop)
           (s : suspended) : Prop :=
  match s with
  | Suspended call k =>
      forall o, delivers _ call o -> task_keeps delivers good_view good_request (k o)
  end.

Definition browser_keeps (delivers : forall R : Type, rpc R -> outcome R -> Prop)
           (good_view : ViewState -> Prop) (good_request : request -> Prop)
           (b : Browser) : Prop :=
  good_view (view (page b))
  /\ Forall (suspended_keeps delivers good_view good_request) (inflight b)
  /\ Forall good_request (sent b).

(** No empty-string description in the add form. *)
Definition clean_form (st : ViewState) : Prop :=
  CreateTodoInput.description (formData st) <> defined (value []).

(** No empty-string description in the add form, in the edit form or in the
    list. *)
Definition clean_view (st : ViewState) : Prop :=
  clean_form st /\
  EditFormData.description (editFormData st) <> value [] /\
  (forall todo, In todo (todos st) -> ~ empty_description todo).

(** A call that does not carry the empty string as description. *)
Definition clean_request (r : request) : Prop :=
  sent_description r <> defined (value []).

(** The same, asked of create calls only. *)
Definition clean_create (r : request) : Prop :=
  match r with
  | Request call =>
      match call with
      | createTodo_mutate input =>
          CreateTodoInput.description input <> defined (value [])
      | _ => True
      end
  end.

(** A stored todo whose description is the empty string, and the page after
    it was loaded, put in edit mode and saved untouched. *)
Definition blank_row : Todo.t :=
  Todo.mk 1 (lit "Original Title") (value []) false 1000 1000.

Definition loaded_blank : Browser :=
  dispatch (loadTodos_then (Resolved [blank_row]))
           (mkBrowser (page mounted) [] (sent mounted)).

Definition saved_blank : Browser :=
  fire EditFormSubmit (fire (EditClick blank_row) loaded_blank).

(** The page after a title was typed into the add form and submitted. *)
Definition submitted_title : Browser :=
  fire FormSubmit (fire (TitleChange (lit "Buy milk")) mounted).

(* ================================================================== *)
(** * Further definitions for the properties of the handlers and the view *)

(** One input standing for two successive updates of a row: a field present
    in the later input wins, a field it omits comes from the earlier one. *)
Definition merge_inputs (first later : UpdateTodoInput.t) : UpdateTodoInput.t :=
  UpdateTodoInput.mk
    (UpdateTodoInput.id later)
    (match UpdateTodoInput.title later with
     | defined v => defined v
     | undefined => UpdateTodoInput.title first
     end)
    (match UpdateTodoInput.description later with
     | defined v => defined v
     | undefined => UpdateTodoInput.description first
     end)
    (match UpdateTodoInput.completed later with
     | defined v => defined v
     | undefined => UpdateTodoInput.completed first
     end).

(** The rewrite an update performs on the table, row by row. *)
Definition rewrite_row (now : Date) (input : UpdateTodoInput.t) (row : Todo.t) : Todo.t :=
  if eq_id (UpdateTodoInput.id input) row then updated_row now input row else row.

(** The todo a card stands for, and whether a card is the edit form. *)
Definition card_todo (c : Card) : Todo.t :=
  match c with
  | EditForm todo _ _ => todo
  | Display todo _ _ => todo
  end.

Definition is_edit_formb (c : Card) : bool :=
  match c with
  | EditForm _ _ _ => true
  | Display _ _ _ => false
  end.

(** A table of two rows, for the examples. *)
Definition second_row : Todo.t :=
  Todo.mk 2 (lit "Test Todo") null true 1500 1500.

(** A page that lists the two rows, the first of them open in the edit form
    with a new title typed. *)
Definition editing_page : Page :=
  mkPage
    (mkViewState [original_row; second_row] false (value original_row)
                 (CreateTodoInput.mk [] (defined null))
                 (EditFormData.mk (lit "Updated Title")
                                  (value (lit "Original description"))))
    [].

(** Whether a waiting handler is waiting for the answer to a create call. *)
Definition is_create (s : suspended) : bool :=
  match s with
  | Suspended call _ =>
      match call with
      | createTodo_mutate _ => true
      | _ => false
      end
  end.

(** A waiting handler that, whatever the answer and the page it arrives on,
    runs to its end without another call, and leaves [isLoading] cleared if
    it waits for a create call and as it finds it otherwise. *)
Definition finishes (s : suspended) : Prop :=
  match s with
  | Suspended call k =>
      forall o q,
        exists q',
          run (k o) q = (q', None)
          /\ isLoading (view q')
             = if is_create (Suspended call k) then false else isLoading (view q)
  end.

(** Answers in which every todo has an id within [P]. *)
Definition delivers_known (P : Z -> Prop) (R : Type) (call : rpc R)
  : outcome R -> Prop :=
  match call in rpc R return outcome R -> Prop with
  | getTodos_query => fun o =>
      match o with
      | Resolved result => forall todo, In todo result -> P (Todo.id todo)
      | Rejected _ => True
      end
  | createTodo_mutate _ => fun o =>
      match o with
      | Resolved response => P (Todo.id response)
      | Rejected _ => True
      end
  | updateTodo_mutate _ => fun o =>
      match o with
      | Resolved response => P (Todo.id response)
      | Rejected _ => True
      end
  | deleteTodo_mutate _ => fun _ => True
  end.

(** The todos the view holds, in the list or as the one being edited, have
    their ids within [P]. *)
Definition view_known (P : Z -> Prop) (st : ViewState) : Prop :=
  (forall todo, In todo (todos st) -> P (Todo.id todo)) /\
  (forall editing, editingTodo st = value editing -> P (Todo.id editing)).

(** The id an update or delete call names is within [P]. *)
Definition request_known (P : Z -> Prop) (r : request) : Prop :=
  match r with
  | Request call =>
      match call with
      | updateTodo_mutate input => P (UpdateTodoInput.id input)
      | deleteTodo_mutate input => P (DeleteTodoInput.id input)
      | _ => True
      end
  end.

Unset Implicit Arguments.

(* ================================================================== *)
(** * The definitions at work *)

Example trim_blank_title : trim (lit "   ") = [].
Proof. reflexivity. Qed.

Example trim_inner_space_kept : trim (lit "  buy milk ") = lit "buy milk".
Proof. reflexivity. Qed.

Example trim_ideographic_space : trim [12288%N; 97%N; 160%N] = [97%N].
Proof. reflexivity. Qed.

Example not_found_message_999999 :
  not_found_message 999999 = lit "Todo with id 999999 not found".
Proof. reflexivity. Qed.

Example ThemeToggle_light :
  ThemeToggle light = mkThemeToggleView (lit "Switch to dark mode") Moon.
Proof. reflexivity. Qed.

Example ThemeToggle_dark :
  ThemeToggle dark = mkThemeToggleView (lit "Switch to light mode") Sun.
Proof. reflexivity. Qed.

(** "should update multiple fields at once" *)
Example updateTodo_multiple_fields :
  updateTodo 2000
    (UpdateTodoInput.mk 1 (defined (lit "New Title"))
                        (defined (value (lit "New description"))) (defined true))
    (mkServer [original_row] [])
  = (Resolved (Todo.mk 1 (lit "New Title") (value (lit "New description")) true
                       1000 2000),
     mkServer [Todo.mk 1 (lit "New Title") (value (lit "New description")) true
                       1000 2000] []).
Proof. reflexivity. Qed.

(** "should return false when deleting non-existent todo" *)
Example deleteTodo_non_existent :
  deleteTodo (DeleteTodoInput.mk 99999) (mkServer [original_row] [])
  = (Resolved (DeleteResult.mk false), mkServer [original_row] []).
Proof. reflexivity. Qed.

(** The page as mounted shows the placeholder and no counters. *)
Example render_initial :
  render initialState = mkRendered None [] [] false NoTodosYet.
Proof. reflexivity. Qed.

(* ================================================================== *)
(** * Properties: printing ids *)

Lemma uint_units_inj :
  forall d d' : Decimal.uint, uint_units d = uint_units d' -> d = d'.
Proof.
  induction d as [|d IH|d IH|d IH|d IH|d IH|d IH|d IH|d IH|d IH|d IH];
    intros [|d'|d'|d'|d'|d'|d'|d'|d'|d'|d'] H; simpl in H;
    try discriminate H; try reflexivity;
    injection H as H; f_equal; apply IH; exact H.
Qed.

Lemma uint_units_not_minus :
  forall (d : Decimal.uint) (s : jsstring), uint_units d <> 45%N :: s.
Proof.
  intros [|d|d|d|d|d|d|d|d|d|d] s; simpl; discriminate.
Qed.

Lemma int_units_inj :
  forall d d' : Decimal.int, int_units d = int_units d' -> d = d'.
Proof.
  intros [u|u] [u'|u'] H; simpl in H.
  - f_equal. apply uint_units_inj. exact H.
  - exfalso. exact (uint_units_not_minus _ _ H).
  - exfalso. symmetry in H. exact (uint_units_not_minus _ _ H).
  - injection H as H. f_equal. apply uint_units_inj. exact H.
Qed.

Lemma Number_toString_inj :
  forall n m : Z, Number_toString n = Number_toString m -> n = m.
Proof.
  unfold Number_toString. intros n m H.
  apply DecimalZ.to_int_inj. apply int_units_inj. exact H.
Qed.

Lemma not_found_message_inj :
  forall i j : Z, not_found_message i = not_found_message j -> i = j.
Proof.
  unfold not_found_message. intros i j H.
  apply app_inv_head in H. apply app_inv_tail in H.
  apply Number_toString_inj. exact H.
Qed.

(* ================================================================== *)
(** * Properties: the statements on the table *)

Lemma eq_id_true : forall i row, eq_id i row = true <-> Todo.id row = i.
Proof. intros i row. unfold eq_id. apply Z.eqb_eq. Qed.

Lemma eq_id_false : forall i row, eq_id i row = false <-> Todo.id row <> i.
Proof. intros i row. unfold eq_id. apply Z.eqb_neq. Qed.

Lemma filter_nothing :
  forall (A : Type) (w : A -> bool) (l : list A),
    (forall x, In x l -> w x = false) -> List.filter w l = [].
Proof.
  induction l as [|x l IH]; intros H; simpl.
  - reflexivity.
  - rewrite (H x (or_introl eq_refl)). apply IH.
    intros y Hy. apply H. right. exact Hy.
Qed.

Lemma filter_everything :
  forall (A : Type) (w : A -> bool) (l : list A),
    (forall x, In x l -> w x = true) -> List.filter w l = l.
Proof.
  induction l as [|x l IH]; intros H; simpl.
  - reflexivity.
  - rewrite (H x (or_introl eq_refl)). f_equal. apply IH.
    intros y Hy. apply H. right. exact Hy.
Qed.

Lemma map_untouched :
  forall (A : Type) (w : A -> bool) (f : A -> A) (l : list A),
    (forall x, In x l -> w x = false) ->
    List.map (fun x => if w x then f x else x) l = l.
Proof.
  induction l as [|x l IH]; intros H; simpl.
  - reflexivity.
  - rewrite (H x (or_introl eq_refl)). f_equal. apply IH.
    intros y Hy. apply H. right. exact Hy.
Qed.

(** Under the primary key a row is the only one with its id. *)
Lemma primary_key_split :
  forall (tbl : Table) (row : Todo.t),
    primary_key tbl -> In row tbl ->
    exists pre post,
      tbl = pre ++ row :: post /\
      (forall r, In r pre -> Todo.id r <> Todo.id row) /\
      (forall r, In r post -> Todo.id r <> Todo.id row).
Proof.
  intros tbl row Hpk Hin.
  destruct (in_split _ _ Hin) as (pre & post & ->).
  exists pre, post. split; [reflexivity|].
  unfold primary_key in Hpk. rewrite map_app in Hpk. simpl in Hpk.
  apply NoDup_remove_2 in Hpk.
  split; intros r Hr Heq; apply Hpk; apply in_or_app; [left|right];
    rewrite <- Heq; apply in_map; exact Hr.
Qed.

Lemma db_update_no_match :
  forall (u : UpdateValues.t) (i : Z) (tbl : Table),
    (forall row, In row tbl -> Todo.id row <> i) ->
    db_update u (eq_id i) tbl = ([], tbl).
Proof.
  intros u i tbl H. unfold db_update.
  assert (Hw : forall row, In row tbl -> eq_id i row = false)
    by (intros row Hrow; apply eq_id_false; apply H; exact Hrow).
  rewrite (filter_nothing _ _ _ Hw), (map_untouched _ _ _ _ Hw). reflexivity.
Qed.

Lemma db_update_one_match :
  forall (u : UpdateValues.t) (pre post : Table) (row : Todo.t),
    (forall r, In r pre -> Todo.id r <> Todo.id row) ->
    (forall r, In r post -> Todo.id r <> Todo.id row) ->
    db_update u (eq_id (Todo.id row)) (pre ++ row :: post)
    = ([assign u row], pre ++ assign u row :: post).
Proof.
  intros u pre post row Hpre Hpost. unfold db_update.
  assert (Wpre : forall r, In r pre -> eq_id (Todo.id row) r = false)
    by (intros r Hr; apply eq_id_false; apply Hpre; exact Hr).
  assert (Wpost : forall r, In r post -> eq_id (Todo.id row) r = false)
    by (intros r Hr; apply eq_id_false; apply Hpost; exact Hr).
  assert (Wrow : eq_id (Todo.id row) row = true) by (apply eq_id_true; reflexivity).
  rewrite filter_app, !map_app. simpl. rewrite Wrow.
  rewrite (filter_nothing _ _ _ Wpre), (filter_nothing _ _ _ Wpost).
  rewrite (map_untouched _ _ _ _ Wpre), (map_untouched _ _ _ _ Wpost).
  reflexivity.
Qed.

Lemma db_delete_no_match :
  forall (i : Z) (tbl : Table),
    (forall row, In row tbl -> Todo.id row <> i) ->
    db_delete (eq_id i) tbl = ([], tbl).
Proof.
  intros i tbl H. unfold db_delete.
  rewrite filter_nothing, filter_everything; [reflexivity| |];
    intros row Hrow; [apply negb_true_iff|]; apply eq_id_false; apply H; exact Hrow.
Qed.

Lemma db_delete_one_match :
  forall (pre post : Table) (row : Todo.t),
    (forall r, In r pre -> Todo.id r <> Todo.id row) ->
    (forall r, In r post -> Todo.id r <> Todo.id row) ->
    db_delete (eq_id (Todo.id row)) (pre ++ row :: post) = ([row], pre ++ post).
Proof.
  intros pre post row Hpre Hpost. unfold db_delete.
  assert (Wrow : eq_id (Todo.id row) row = true) by (apply eq_id_true; reflexivity).
  rewrite !filter_app. simpl. rewrite Wrow. simpl.
  rewrite (filter_nothing _ (eq_id (Todo.id row)) pre),
          (filter_nothing _ (eq_id (Todo.id row)) post).
  - rewrite !filter_everything; [reflexivity| |];
      intros r Hr; apply negb_true_iff; apply eq_id_false; auto.
  - intros r Hr; apply eq_id_false; auto.
  - intros r Hr; apply eq_id_false; auto.
Qed.

(** Whether some row has the id is decidable, by scanning the table. *)
Lemma row_with_id_dec :
  forall (i : Z) (tbl : Table),
    (exists row, In row tbl /\ Todo.id row = i)
    \/ (forall row, In row tbl -> Todo.id row <> i).
Proof.
  intros i. induction tbl as [|r tbl IH].
  - right. intros row [].
  - destruct (Z.eq_dec (Todo.id r) i) as [E|N].
    + left. exists r. split; [left; reflexivity|exact E].
    + destruct IH as [(row & Hin & E)|H].
      * left. exists row. split; [right; exact Hin|exact E].
      * right. intros row [<-|Hin]; [exact N|apply H; exact Hin].
Qed.

(* ================================================================== *)
(** * Properties: [updateTodo] *)

(** [updateTodo] on a table where exactly [row] has the id. *)
Lemma updateTodo_on_row :
  forall (now : Date) (input : UpdateTodoInput.t) (pre post : Table) (row : Todo.t)
         (out : list console_line),
    Todo.id row = UpdateTodoInput.id input ->
    (forall r, In r pre -> Todo.id r <> Todo.id row) ->
    (forall r, In r post -> Todo.id r <> Todo.id row) ->
    updateTodo now input (mkServer (pre ++ row :: post) out)
    = (Resolved (updated_row now input row),
       mkServer (pre ++ updated_row now input row :: post) out).
Proof.
  intros now input pre post row out Hid Hpre Hpost.
  unfold updateTodo, try_catch, bind, execute. simpl todosTable.
  rewrite <- Hid. rewrite (db_update_one_match _ _ _ _ Hpre Hpost).
  unfold updated_row.
  destruct input as [i [|t] [|d] [|c]]; reflexivity.
Qed.

Lemma updateTodo_on_missing :
  forall (now : Date) (input : UpdateTodoInput.t) (srv : Server),
    (forall row, In row (todosTable srv) -> Todo.id row <> UpdateTodoInput.id input) ->
    updateTodo now input srv
    = (Rejected (mkError (not_found_message (UpdateTodoInput.id input))),
       mkServer (todosTable srv)
                (serverConsole srv
                   ++ [(lit "Todo update failed:",
                        mkError (not_found_message (UpdateTodoInput.id input)))])).
Proof.
  intros now input srv H.
  unfold updateTodo, try_catch, bind, execute.
  rewrite (db_update_no_match _ _ _ H). reflexivity.
Qed.

(** C1.  The update is to set [updated_at] strictly later than its prior
    value, as the handler's tests assert after every update
    ([result.updated_at > createdTodo.updated_at]).  The handler stores the
    clock's reading without comparing it with the stored value: for the
    title-only update of the tests, made in the millisecond in which the row
    was last written, the title is replaced but [updated_at] comes out equal
    to its prior value, not later. *)
Lemma updateTodo_same_millisecond :
  primary_key [original_row] /\
  In original_row [original_row] /\
  Todo.id original_row = UpdateTodoInput.id title_only_input /\
  exists row',
    updateTodo (Todo.updated_at original_row) title_only_input
               (mkServer [original_row] [])
    = (Resolved row', mkServer [row'] []) /\
    Todo.title row' = lit "Updated Title" /\
    Todo.updated_at row' = Todo.updated_at original_row /\
    (Todo.updated_at original_row <? Todo.updated_at row') = false.
Proof.
  split; [unfold primary_key; simpl; constructor; [intros []|constructor]|].
  split; [left; reflexivity|]. split; [reflexivity|].
  eexists. split; [reflexivity|]. repeat split.
Qed.

(** C2.  For every input whose id matches no stored row, [updateTodo] rejects
    in that same call with an error whose message is [Todo with id <id> not
    found], a message that determines the id; the table is left as it was (the
    failure is logged on the server console). *)
Theorem updateTodo_not_found :
  forall (now : Date) (input : UpdateTodoInput.t) (srv : Server),
    (forall row, In row (todosTable srv) -> Todo.id row <> UpdateTodoInput.id input) ->
    exists e out,
      updateTodo now input srv = (Rejected e, mkServer (todosTable srv) out) /\
      message e
      = lit "Todo with id " ++ Number_toString (UpdateTodoInput.id input)
          ++ lit " not found" /\
      (forall j, message e = not_found_message j -> j = UpdateTodoInput.id input).
Proof.
  intros now input srv H.
  exists (mkError (not_found_message (UpdateTodoInput.id input))).
  eexists. split; [apply updateTodo_on_missing; exact H|].
  split; [reflexivity|].
  intros j Hj. simpl in Hj. symmetry. apply not_found_message_inj. exact Hj.
Qed.

(** The missing-id update of the test suite. *)
Lemma updateTodo_not_found_witness :
  exists e out,
    updateTodo 2000 missing_id_input (mkServer [original_row] [])
    = (Rejected e, mkServer [original_row] out) /\
    message e = lit "Todo with id " ++ Number_toString 999999 ++ lit " not found" /\
    (forall j, message e = not_found_message j -> j = 999999).
Proof.
  apply (updateTodo_not_found 2000 missing_id_input (mkServer [original_row] [])).
  simpl. intros row [<-|[]]. simpl. discriminate.
Defined.

(** C3.  For every stored row, an update whose input carries [null] for the
    description resolves to the row with its description absent, and that is
    the row the table then holds under the id; title and completed are
    unchanged when the input omits them; an update that omits the description
    leaves it as it was. *)
Theorem updateTodo_description_null :
  forall (now : Date) (input : UpdateTodoInput.t) (srv : Server) (row : Todo.t),
    primary_key (todosTable srv) ->
    In row (todosTable srv) ->
    Todo.id row = UpdateTodoInput.id input ->
    exists row' srv',
      updateTodo now input srv = (Resolved row', srv') /\
      In row' (todosTable srv') /\
      (forall r, In r (todosTable srv') -> Todo.id r = Todo.id row -> r = row') /\
      (UpdateTodoInput.description input = defined null ->
       Todo.description row' = null) /\
      (UpdateTodoInput.description input = undefined ->
       Todo.description row' = Todo.description row) /\
      (UpdateTodoInput.title input = undefined -> Todo.title row' = Todo.title row) /\
      (UpdateTodoInput.completed input = undefined ->
       Todo.completed row' = Todo.completed row).
Proof.
  intros now input [tbl out] row Hpk Hin Hid. simpl in *.
  destruct (primary_key_split _ _ Hpk Hin) as (pre & post & -> & Hpre & Hpost).
  exists (updated_row now input row).
  exists (mkServer (pre ++ updated_row now input row :: post) out).
  split; [apply updateTodo_on_row; assumption|].
  split; [simpl; apply in_or_app; right; left; reflexivity|].
  split.
  - simpl. intros r Hr Hrid. apply in_app_or in Hr.
    destruct Hr as [Hr|[Hr|Hr]].
    + exfalso. exact (Hpre r Hr Hrid).
    + symmetry. exact Hr.
    + exfalso. exact (Hpost r Hr Hrid).
  - unfold updated_row. simpl.
    repeat split; intros H; rewrite H; reflexivity.
Qed.

(** The description-to-null update of the test suite. *)
Lemma updateTodo_description_null_witness :
  exists row' srv',
    updateTodo 2000 description_null_input (mkServer [original_row] [])
    = (Resolved row', srv') /\
    In row' (todosTable srv') /\
    (forall r, In r (todosTable srv') -> Todo.id r = Todo.id original_row -> r = row') /\
    (UpdateTodoInput.description description_null_input = defined null ->
     Todo.description row' = null) /\
    (UpdateTodoInput.description description_null_input = undefined ->
     Todo.description row' = Todo.description original_row) /\
    (UpdateTodoInput.title description_null_input = undefined ->
     Todo.title row' = Todo.title original_row) /\
    (UpdateTodoInput.completed description_null_input = undefined ->
     Todo.completed row' = Todo.completed original_row).
Proof.
  apply (updateTodo_description_null 2000 description_null_input
           (mkServer [original_row] []) original_row).
  - unfold primary_key. simpl. constructor; [intros []|constructor].
  - simpl. left. reflexivity.
  - reflexivity.
Defined.

(* ================================================================== *)
(** * Properties: [deleteTodo] *)

(** C4.  For every input, [deleteTodo] resolves (it never rejects) to a
    success flag that is true if and only if a row with the id was stored; the
    table it leaves holds exactly the rows with another id; when the flag is
    false the table is as it was, and when it is true exactly one row is gone. *)
Theorem deleteTodo_success_iff_removed :
  forall (input : DeleteTodoInput.t) (srv : Server),
    primary_key (todosTable srv) ->
    exists success tbl',
      deleteTodo input srv
      = (Resolved (DeleteResult.mk success), mkServer tbl' (serverConsole srv)) /\
      (success = true <->
       exists row, In row (todosTable srv) /\ Todo.id row = DeleteTodoInput.id input) /\
      (forall row,
         In row tbl' <->
         In row (todosTable srv) /\ Todo.id row <> DeleteTodoInput.id input) /\
      (success = false -> tbl' = todosTable srv) /\
      (success = true -> S (List.length tbl') = List.length (todosTable srv)).
Proof.
  intros [i] [tbl out] Hpk. simpl in *.
  destruct (row_with_id_dec i tbl) as [(row & Hin & Hid)|Hnone].
  - destruct (primary_key_split _ _ Hpk Hin) as (pre & post & -> & Hpre & Hpost).
    exists true, (pre ++ post). subst i.
    split.
    { unfold deleteTodo, try_catch, bind, execute.
      cbn [DeleteTodoInput.id todosTable serverConsole].
      rewrite (db_delete_one_match _ _ _ Hpre Hpost). reflexivity. }
    split.
    { split; [intros _; exists row; split; [exact Hin|reflexivity]|reflexivity]. }
    split.
    { intros r. rewrite !in_app_iff. simpl. split.
      - intros [Hr|Hr]; (split; [tauto|]); [apply Hpre|apply Hpost]; exact Hr.
      - intros [[Hr|[Hr|Hr]] Hne]; [left; exact Hr| |right; exact Hr].
        exfalso. apply Hne. rewrite Hr. reflexivity. }
    split; [discriminate|].
    intros _. rewrite !length_app. simpl. lia.
  - exists false, tbl.
    split.
    { unfold deleteTodo, try_catch, bind, execute.
      cbn [DeleteTodoInput.id todosTable serverConsole].
      rewrite (db_delete_no_match _ _ Hnone). reflexivity. }
    split.
    { split; [discriminate|]. intros (row & Hin & Hid). exfalso.
      exact (Hnone row Hin Hid). }
    split.
    { intros r. split; [intros Hr; split; [exact Hr|apply Hnone; exact Hr]|tauto]. }
    split; [reflexivity|discriminate].
Qed.

(** Deleting the stored row, as the test suite does. *)
Lemma deleteTodo_success_iff_removed_witness :
  exists success tbl',
    deleteTodo (DeleteTodoInput.mk 1) (mkServer [original_row] [])
    = (Resolved (DeleteResult.mk success), mkServer tbl' []) /\
    (success = true <->
     exists row, In row [original_row] /\ Todo.id row = 1) /\
    (forall row, In row tbl' <-> In row [original_row] /\ Todo.id row <> 1) /\
    (success = false -> tbl' = [original_row]) /\
    (success = true -> S (List.length tbl') = List.length [original_row]).
Proof.
  apply (deleteTodo_success_iff_removed (DeleteTodoInput.mk 1)
           (mkServer [original_row] [])).
  unfold primary_key. simpl. constructor; [intros []|constructor].
Defined.

(* ================================================================== *)
(** * Properties: the theme toggle *)

(** C8.  From either mode two toggles bring the display mode back; after a
    toggle the persisted value is the new mode, so a session started from it
    begins in that mode; and the toggle control names in its title, and shows
    the icon of, the mode a click would switch to. *)
Theorem toggleTheme_twice_and_persist :
  forall s : ThemeSession,
    theme (toggleTheme (toggleTheme s)) = theme s /\
    theme (toggleTheme s) <> theme s /\
    persisted (toggleTheme s) = Some (theme (toggleTheme s)) /\
    theme (startSession (persisted (toggleTheme s))) = theme (toggleTheme s) /\
    buttonTitle (ThemeToggle (theme s))
    = lit "Switch to " ++ mode_name (theme (toggleTheme s)) ++ lit " mode" /\
    icon (ThemeToggle (theme s)) = mode_icon (theme (toggleTheme s)).
Proof.
  intros [[|] stored]; simpl; repeat split; discriminate.
Qed.

(* ================================================================== *)
(** * Properties: the handlers of the view *)

Lemma not_truthy_iff : forall s : jsstring, negb (truthy s) = true <-> s = [].
Proof.
  intros [|c s]; simpl; split; intros H; try reflexivity; discriminate H.
Qed.

(** C5.  [handleToggleComplete] sends one update call whose input has the
    todo's id and the negation of its completed flag and neither title nor
    description; nothing changes on the page before the answer; when the call
    resolves, every item with that id is replaced by the returned record and
    the rest of the list is kept; when it rejects, the state is left as it is
    and the failure is logged. *)
Theorem handleToggleComplete_spec :
  forall (todo : Todo.t) (p : Page),
    let updateData :=
      UpdateTodoInput.mk (Todo.id todo) undefined undefined
                         (defined (negb (Todo.completed todo))) in
    exists k,
      run (handleToggleComplete todo) p
      = (p, Some (Suspended (updateTodo_mutate updateData) k)) /\
      (forall (response : Todo.t) (q : Page),
         run (k (Resolved response)) q
         = (mkPage
              (mkViewState
                 (List.map (fun t => if Todo.id t =? Todo.id todo then response else t)
                           (todos (view q)))
                 (isLoading (view q)) (editingTodo (view q))
                 (formData (view q)) (editFormData (view q)))
              (console q),
            None)) /\
      (forall (error : Error) (q : Page),
         run (k (Rejected error)) q
         = (mkPage (view q) (console q ++ [(lit "Failed to toggle todo:", error)]),
            None)) /\
      (forall answer,
         snd (complete answer (handleToggleComplete todo) p)
         = [Request (updateTodo_mutate updateData)]).
Proof.
  intros todo p updateData. eexists. split; [reflexivity|].
  split; [intros; reflexivity|]. split; [intros; reflexivity|].
  intros answer. subst updateData. simpl.
  match goal with |- context [answer ?R ?c] => destruct (answer R c) end;
    reflexivity.
Qed.

(** C6.  [handleSubmit]: when the title is empty after trimming, nothing is
    sent and nothing changes; otherwise the create call goes out with the form
    data while the page has [isLoading] set, which disables the submit
    control; when the call resolves the returned todo is appended to the list,
    the form is reset to an empty title and a null description and
    [isLoading] is cleared; when it rejects, list and form are kept, the
    failure is logged and [isLoading] is cleared. *)
Theorem handleSubmit_spec :
  forall p : Page,
    let st := view p in
    (trim (CreateTodoInput.title (formData st)) = [] ->
     run (handleSubmit st) p = (p, None) /\
     forall answer, complete answer (handleSubmit st) p = (p, [])) /\
    (trim (CreateTodoInput.title (formData st)) <> [] ->
     exists k,
       run (handleSubmit st) p
       = (mkPage (setIsLoading true st) (console p),
          Some (Suspended (createTodo_mutate (formData st)) k)) /\
       submitDisabled (render (setIsLoading true st)) = true /\
       (forall (response : Todo.t) (q : Page),
          run (k (Resolved response)) q
          = (mkPage
               (mkViewState (todos (view q) ++ [response]) false
                            (editingTodo (view q))
                            (CreateTodoInput.mk [] (defined null))
                            (editFormData (view q)))
               (console q),
             None)) /\
       (forall (error : Error) (q : Page),
          run (k (Rejected error)) q
          = (mkPage
               (mkViewState (todos (view q)) false (editingTodo (view q))
                            (formData (view q)) (editFormData (view q)))
               (console q ++ [(lit "Failed to create todo:", error)]),
             None)) /\
       (forall answer,
          snd (complete answer (handleSubmit st) p)
          = [Request (createTodo_mutate (formData st))])).
Proof.
  intros p st. unfold handleSubmit. split.
  - intros E. rewrite E. simpl. split; [reflexivity|]. intros answer. reflexivity.
  - intros N.
    destruct (negb (truthy (trim (CreateTodoInput.title (formData st))))) eqn:T.
    + exfalso. apply N. apply not_truthy_iff. exact T.
    + eexists. split; [reflexivity|]. split; [reflexivity|].
      split; [intros; reflexivity|]. split; [intros; reflexivity|].
      intros answer. simpl.
      match goal with |- context [answer ?R ?c] => destruct (answer R c) end;
        reflexivity.
Qed.

(** C9.  [handleDelete] sends one delete call; whenever it resolves, whatever
    the returned success flag, the items with the id are filtered out of the
    list.  In particular, when the server stores no row with the id,
    [deleteTodo] resolves to [success = false] and the view still drops every
    item with the id that it was showing. *)
Theorem handleDelete_ignores_success :
  forall (todoId : Z) (p : Page),
    exists k,
      run (handleDelete todoId) p
      = (p, Some (Suspended (deleteTodo_mutate (DeleteTodoInput.mk todoId)) k)) /\
      (forall (result : DeleteResult.t) (q : Page),
         run (k (Resolved result)) q
         = (mkPage
              (mkViewState
                 (List.filter (fun t => negb (Todo.id t =? todoId)) (todos (view q)))
                 (isLoading (view q)) (editingTodo (view q))
                 (formData (view q)) (editFormData (view q)))
              (console q),
            None)) /\
      (forall (srv : Server) (q : Page),
         (forall row, In row (todosTable srv) -> Todo.id row <> todoId) ->
         fst (deleteTodo (DeleteTodoInput.mk todoId) srv)
         = Resolved (DeleteResult.mk false) /\
         exists q',
           run (k (fst (deleteTodo (DeleteTodoInput.mk todoId) srv))) q = (q', None) /\
           Nat.add (List.length (todos (view q')))
                   (List.length (List.filter (fun t => Todo.id t =? todoId)
                                             (todos (view q))))
           = List.length (todos (view q)) /\
           forall t, In t (todos (view q')) <->
                     In t (todos (view q)) /\ Todo.id t <> todoId).
Proof.
  intros todoId p. eexists. split; [reflexivity|].
  split; [intros; reflexivity|].
  intros srv q Hnone.
  assert (E : fst (deleteTodo (DeleteTodoInput.mk todoId) srv)
              = Resolved (DeleteResult.mk false)).
  { unfold deleteTodo, try_catch, bind, execute.
    cbn [DeleteTodoInput.id].
    rewrite (db_delete_no_match _ _ Hnone). reflexivity. }
  split; [exact E|].
  rewrite E. eexists. split; [reflexivity|]. simpl. split.
  - pose proof (filter_length (fun t => Todo.id t =? todoId) (todos (view q))). lia.
  - intros t. rewrite filter_In, negb_true_iff, Z.eqb_neq. reflexivity.
Qed.

(* ================================================================== *)
(** * Properties: render *)

(** C7.  The rendered page shows the placeholder exactly when the list is
    empty and the counters exactly when the total is positive, that is,
    exactly when the list is not empty; the counters shown are the length of
    the list, the number of completed items and their difference, which is
    never negative. *)
Theorem render_placeholder_and_counters :
  forall st : ViewState,
    (todoList (render st) = NoTodosYet <-> todos st = []) /\
    (counters (render st) <> None <-> 0 < totalCount st) /\
    (0 < totalCount st <-> todos st <> []) /\
    (forall c, counters (render st) = Some c ->
       totalBadge c = Z.of_nat (List.length (todos st)) /\
       completedBadge c
       = Z.of_nat (List.length (List.filter Todo.completed (todos st))) /\
       remainingBadge c = totalBadge c - completedBadge c /\
       0 <= remainingBadge c).
Proof.
  intros st. unfold render, totalCount, completedCount. cbn [todoList counters].
  split.
  { destruct (Z.eqb_spec (Z.of_nat (List.length (todos st))) 0) as [E|N].
    - split; [intros _|reflexivity].
      destruct (todos st); [reflexivity|simpl in E; lia].
    - split; [discriminate|]. intros H. rewrite H in N. simpl in N. lia. }
  split.
  { destruct (Z.ltb_spec 0 (Z.of_nat (List.length (todos st)))) as [L|G].
    - split; [intros _; exact L|discriminate].
    - split; [intros H; exfalso; apply H; reflexivity|lia]. }
  split.
  { destruct (todos st); simpl; split; intros H; try lia; try discriminate.
    exfalso. apply H. reflexivity. }
  intros c.
  destruct (Z.ltb_spec 0 (Z.of_nat (List.length (todos st)))) as [L|G];
    [|discriminate].
  intros H. injection H as <-. simpl.
  repeat split.
  pose proof (filter_length_le Todo.completed (todos st)). lia.
Qed.

(* ================================================================== *)
(** * Properties: invariants of the event loop *)

Section Invariant.

Variable delivers : forall R : Type, rpc R -> outcome R -> Prop.
Variable good_view : ViewState -> Prop.
Variable good_request : request -> Prop.

Let keeps := task_keeps delivers good_view good_request.
Let waits := suspended_keeps delivers good_view good_request.
Let inv := browser_keeps delivers good_view good_request.

Lemma run_keeps :
  forall (t : task) (p : Page),
    keeps t -> good_view (view p) ->
    good_view (view (fst (run t p))) /\
    match snd (run t p) with
    | None => True
    | Some s => good_request (request_of s) /\ waits s
    end.
Proof.
  induction t as [|f k IH|label e k IH|R call k IH]; intros p Ht Hp; simpl in *.
  - split; [exact Hp|exact I].
  - destruct Ht as [Hf Hk]. apply IH; [exact Hk|]. simpl. apply Hf. exact Hp.
  - apply IH; [exact Ht|exact Hp].
  - destruct Ht as [Hcall Hk]. split; [exact Hp|]. split; [exact Hcall|exact Hk].
Qed.

Lemma dispatch_keeps :
  forall (t : task) (b : Browser), keeps t -> inv b -> inv (dispatch t b).
Proof.
  intros t b Ht (Hview & Hwait & Hsent).
  pose proof (run_keeps t (page b) Ht Hview) as [Hv Hs].
  unfold dispatch. destruct (run t (page b)) as [p [s|]]; simpl in *.
  - destruct Hs as [Hreq Hsusp]. split; [exact Hv|]. split.
    + apply Forall_app. split; [exact Hwait|]. constructor; [exact Hsusp|constructor].
    + apply Forall_app. split; [exact Hsent|]. constructor; [exact Hreq|constructor].
  - split; [exact Hv|]. split; assumption.
Qed.

Hypothesis initial_good : good_view initialState.
Hypothesis loadTodos_keeps : keeps loadTodos.
Hypothesis handler_keeps :
  forall (st : ViewState) (ev : ui_event),
    good_view st -> offers (render st) ev -> keeps (handler st ev).

Lemma step_keeps : forall b b' : Browser, inv b -> step delivers b b' -> inv b'.
Proof.
  intros b b' Hb Hstep. destruct Hstep as [b ev Hev|b pre post R call k o Hin Ho].
  - apply dispatch_keeps; [|exact Hb].
    apply handler_keeps; [exact (proj1 Hb)|exact Hev].
  - destruct Hb as (Hview & Hwait & Hsent).
    rewrite Hin in Hwait. apply Forall_app in Hwait. destruct Hwait as [Hpre Hrest].
    inversion Hrest as [|s rest Hs Hpost]; subst.
    apply dispatch_keeps.
    + apply Hs. exact Ho.
    + split; [exact Hview|]. split; [|exact Hsent].
      simpl. apply Forall_app. split; assumption.
Qed.

Lemma reachable_keeps : forall b : Browser, reachable delivers b -> inv b.
Proof.
  induction 1 as [|b b' _ IH Hstep].
  - apply dispatch_keeps; [exact loadTodos_keeps|].
    split; [exact initial_good|]. split; constructor.
  - exact (step_keeps b b' IH Hstep).
Qed.

End Invariant.

(** A card on display shows a todo of the list. *)
Lemma shows_display_in_todos :
  forall (st : ViewState) (todo : Todo.t),
    shows (render st) (is_display_of todo) -> In todo (todos st).
Proof.
  intros st todo. unfold shows, render. cbn [todoList].
  destruct (Z.of_nat (List.length (todos st)) =? 0); [intros []|].
  intros (c & Hc & Hdisp). apply in_map_iff in Hc. destruct Hc as (t & <- & Ht).
  unfold card in Hdisp. destruct (is_editing st t); simpl in Hdisp.
  - destruct Hdisp.
  - subst t. exact Ht.
Qed.

Lemma or_null_not_empty : forall v : jsstring, or_null v <> value [].
Proof.
  intros [|c v]; unfold or_null; simpl; intros H; discriminate H.
Qed.

(** ** The add form, whatever the server answers *)

Lemma clean_form_setTodos :
  forall f st, clean_form st -> clean_form (setTodos f st).
Proof. intros f st H. exact H. Qed.

Lemma clean_form_setIsLoading :
  forall v st, clean_form st -> clean_form (setIsLoading v st).
Proof. intros v st H. exact H. Qed.

Lemma clean_form_setEditingTodo :
  forall v st, clean_form st -> clean_form (setEditingTodo v st).
Proof. intros v st H. exact H. Qed.

Lemma clean_form_setEditFormData :
  forall f st, clean_form st -> clean_form (setEditFormData f st).
Proof. intros f st H. exact H. Qed.

Lemma clean_form_reset :
  forall st, clean_form (setFormData (fun _ => CreateTodoInput.mk [] (defined null)) st).
Proof. intros st. unfold clean_form. simpl. discriminate. Qed.

Lemma handler_keeps_clean_form :
  forall (st : ViewState) (ev : ui_event),
    clean_form st -> offers (render st) ev ->
    task_keeps any_answer clean_form clean_create (handler st ev).
Proof.
  intros st ev Hst _. destruct ev; simpl.
  - split; [|exact I]. intros st' H. exact H.
  - split; [|exact I]. intros st' _. unfold clean_form. simpl.
    intros H. injection H as H. exact (or_null_not_empty _ H).
  - unfold handleSubmit.
    destruct (negb (truthy (trim (CreateTodoInput.title (formData st)))));
      [exact I|].
    simpl. split; [apply clean_form_setIsLoading|]. split; [exact Hst|].
    intros [response|error] _; simpl.
    + split; [apply clean_form_setTodos|].
      split; [intros st' _; apply clean_form_reset|].
      split; [apply clean_form_setIsLoading|exact I].
    + split; [apply clean_form_setIsLoading|exact I].
  - split; [exact I|]. intros [response|error] _; simpl; [|exact I].
    split; [apply clean_form_setTodos|exact I].
  - split; [apply clean_form_setEditingTodo|].
    split; [apply clean_form_setEditFormData|exact I].
  - split; [exact I|]. intros [result|error] _; simpl; [|exact I].
    split; [apply clean_form_setTodos|exact I].
  - split; [apply clean_form_setEditFormData|exact I].
  - split; [apply clean_form_setEditFormData|exact I].
  - unfold handleEditSubmit. destruct (editingTodo st) as [|editing]; [exact I|].
    destruct (negb (truthy (trim (EditFormData.title (editFormData st)))));
      [exact I|].
    simpl. split; [exact I|]. intros [response|error] _; simpl; [|exact I].
    split; [apply clean_form_setTodos|].
    split; [apply clean_form_setEditingTodo|].
    split; [apply clean_form_setEditFormData|exact I].
  - split; [apply clean_form_setEditingTodo|].
    split; [apply clean_form_setEditFormData|exact I].
Qed.

Lemma reachable_clean_create :
  forall b : Browser,
    reachable any_answer b -> browser_keeps any_answer clean_form clean_create b.
Proof.
  apply reachable_keeps.
  - unfold clean_form. simpl. discriminate.
  - simpl. split; [exact I|]. intros [result|error] _; simpl; [|exact I].
    split; [apply clean_form_setTodos|exact I].
  - exact handler_keeps_clean_form.
Qed.

(** ** Both forms, when the server delivers no empty-string description *)

Lemma clean_view_setTodos :
  forall f : list Todo.t -> list Todo.t,
    (forall l, (forall t, In t l -> ~ empty_description t) ->
               forall t, In t (f l) -> ~ empty_description t) ->
    forall st, clean_view st -> clean_view (setTodos f st).
Proof.
  intros f Hf st (H1 & H2 & H3). split; [exact H1|]. split; [exact H2|].
  simpl. apply Hf. exact H3.
Qed.

Lemma clean_view_setIsLoading :
  forall v st, clean_view st -> clean_view (setIsLoading v st).
Proof. intros v st H. exact H. Qed.

Lemma clean_view_setEditingTodo :
  forall v st, clean_view st -> clean_view (setEditingTodo v st).
Proof. intros v st H. exact H. Qed.

Lemma clean_view_setFormData :
  forall f : CreateTodoInput.t -> CreateTodoInput.t,
    (forall d, CreateTodoInput.description d <> defined (value []) ->
               CreateTodoInput.description (f d) <> defined (value [])) ->
    forall st, clean_view st -> clean_view (setFormData f st).
Proof.
  intros f Hf st (H1 & H2 & H3). split; [|split; [exact H2|exact H3]].
  unfold clean_form. simpl. apply Hf. exact H1.
Qed.

Lemma clean_view_setEditFormData :
  forall f : EditFormData.t -> EditFormData.t,
    (forall d, EditFormData.description d <> value [] ->
               EditFormData.description (f d) <> value []) ->
    forall st, clean_view st -> clean_view (setEditFormData f st).
Proof.
  intros f Hf st (H1 & H2 & H3). split; [exact H1|]. split; [|exact H3].
  simpl. apply Hf. exact H2.
Qed.

Lemma replace_keeps_clean :
  forall (i : Z) (response : Todo.t),
    ~ empty_description response ->
    forall l, (forall t, In t l -> ~ empty_description t) ->
    forall t, In t (List.map (fun t' => if Todo.id t' =? i then response else t') l) ->
              ~ empty_description t.
Proof.
  intros i response Hr l Hl t Ht. apply in_map_iff in Ht.
  destruct Ht as (t' & <- & Ht'). destruct (Todo.id t' =? i); [exact Hr|].
  apply Hl. exact Ht'.
Qed.

Lemma handler_keeps_clean_view :
  forall (st : ViewState) (ev : ui_event),
    clean_view st -> offers (render st) ev ->
    task_keeps no_empty_description clean_view clean_request (handler st ev).
Proof.
  intros st ev Hst Hev. destruct ev; simpl.
  - split; [|exact I]. apply clean_view_setFormData. intros d H. exact H.
  - split; [|exact I]. apply clean_view_setFormData. intros d _. simpl.
    intros H. injection H as H. exact (or_null_not_empty _ H).
  - unfold handleSubmit.
    destruct (negb (truthy (trim (CreateTodoInput.title (formData st)))));
      [exact I|].
    simpl. split; [apply clean_view_setIsLoading|]. split; [exact (proj1 Hst)|].
    intros [response|error] Ho; simpl in *.
    + split.
      { apply clean_view_setTodos. intros l Hl t Ht. apply in_app_or in Ht.
        destruct Ht as [Ht|[<-|[]]]; [apply Hl; exact Ht|exact Ho]. }
      split; [apply clean_view_setFormData; intros d _; simpl; discriminate|].
      split; [apply clean_view_setIsLoading|exact I].
    + split; [apply clean_view_setIsLoading|exact I].
  - split; [unfold clean_request; simpl; discriminate|].
    intros [response|error] Ho; simpl in *; [|exact I].
    split; [|exact I]. apply clean_view_setTodos. apply replace_keeps_clean. exact Ho.
  - split; [apply clean_view_setEditingTodo|]. split; [|exact I].
    apply clean_view_setEditFormData. intros d _. simpl.
    apply (proj2 (proj2 Hst)). apply shows_display_in_todos. exact Hev.
  - split; [unfold clean_request; simpl; discriminate|].
    intros [result|error] _; simpl; [|exact I].
    split; [|exact I]. apply clean_view_setTodos. intros l Hl t Ht.
    apply filter_In in Ht. apply Hl. exact (proj1 Ht).
  - split; [|exact I]. apply clean_view_setEditFormData. intros d H. exact H.
  - split; [|exact I]. apply clean_view_setEditFormData. intros d _. simpl.
    apply or_null_not_empty.
  - unfold handleEditSubmit. destruct (editingTodo st) as [|editing]; [exact I|].
    destruct (negb (truthy (trim (EditFormData.title (editFormData st)))));
      [exact I|].
    simpl. split.
    { unfold clean_request. simpl. intros H. injection H as H.
      exact (proj1 (proj2 Hst) H). }
    intros [response|error] Ho; simpl in *; [|exact I].
    split; [apply clean_view_setTodos; apply replace_keeps_clean; exact Ho|].
    split; [apply clean_view_setEditingTodo|]. split; [|exact I].
    apply clean_view_setEditFormData. intros d _. simpl. discriminate.
  - split; [apply clean_view_setEditingTodo|]. split; [|exact I].
    apply clean_view_setEditFormData. intros d _. simpl. discriminate.
Qed.

Lemma reachable_clean_view :
  forall b : Browser,
    reachable no_empty_description b ->
    browser_keeps no_empty_description clean_view clean_request b.
Proof.
  apply reachable_keeps.
  - split; [unfold clean_form; simpl; discriminate|].
    split; [simpl; discriminate|]. intros todo [].
  - simpl. split; [unfold clean_request; simpl; discriminate|].
    intros [result|error] Ho; simpl in *; [|exact I].
    split; [|exact I]. apply clean_view_setTodos. intros l _ t Ht. apply Ho. exact Ht.
  - exact handler_keeps_clean_view.
Qed.

(** C10, as the code has it.  On every page the event loop can reach, a call
    sent by the add form never carries the empty string as description,
    whatever the server has answered; and when no todo the server delivers has
    the empty string as description, no call the view sends carries it
    either, the edit form's included. *)
Theorem sent_description_never_empty :
  forall b : Browser,
    (reachable any_answer b ->
     forall input, In (Request (createTodo_mutate input)) (sent b) ->
                   CreateTodoInput.description input <> defined (value [])) /\
    (reachable no_empty_description b ->
     forall r, In r (sent b) -> sent_description r <> defined (value [])).
Proof.
  intros b. split.
  - intros Hb input Hin.
    destruct (reachable_clean_create b Hb) as (_ & _ & Hsent).
    rewrite Forall_forall in Hsent. exact (Hsent _ Hin).
  - intros Hb r Hin.
    destruct (reachable_clean_view b Hb) as (_ & _ & Hsent).
    rewrite Forall_forall in Hsent. exact (Hsent _ Hin).
Qed.

Lemma mounted_then_submitted :
  forall delivers : forall R : Type, rpc R -> outcome R -> Prop,
    reachable delivers submitted_title.
Proof.
  intros delivers. unfold submitted_title.
  eapply reachable_step; [eapply reachable_step; [apply reachable_mounted|]|];
    apply step_event; simpl; [exact I|reflexivity].
Qed.

(** A title typed and submitted: the create call carries [null]. *)
Lemma sent_description_never_empty_witness :
  reachable no_empty_description submitted_title /\
  In (Request (createTodo_mutate (CreateTodoInput.mk (lit "Buy milk") (defined null))))
     (sent submitted_title) /\
  sent_description
    (Request (createTodo_mutate (CreateTodoInput.mk (lit "Buy milk") (defined null))))
  <> defined (value []).
Proof.
  assert (R : reachable no_empty_description submitted_title)
    by apply mounted_then_submitted.
  assert (S : In (Request (createTodo_mutate
                             (CreateTodoInput.mk (lit "Buy milk") (defined null))))
                 (sent submitted_title))
    by (vm_compute; right; left; reflexivity).
  split; [exact R|]. split; [exact S|].
  exact (proj2 (sent_description_never_empty submitted_title) R _ S).
Defined.

(** C10 as stated fails for the edit form: the todos being loaded, one of
    them with the empty string as description, the user opens it in the edit
    form and saves; the update call carries the empty string. *)
Lemma edit_form_sends_empty_description :
  reachable any_answer saved_blank /\
  In (Request (updateTodo_mutate
                 (UpdateTodoInput.mk 1 (defined (lit "Original Title"))
                                     (defined (value [])) undefined)))
     (sent saved_blank).
Proof.
  split.
  - assert (R1 : reachable any_answer loaded_blank).
    { apply (@reachable_step any_answer mounted loaded_blank (reachable_mounted _)).
      apply (@step_answer any_answer mounted [] [] (list Todo.t) getTodos_query
               loadTodos_then (Resolved [blank_row])); [reflexivity|exact I]. }
    assert (R2 : reachable any_answer (fire (EditClick blank_row) loaded_blank)).
    { apply (@reachable_step any_answer loaded_blank _ R1).
      apply (@step_event any_answer loaded_blank (EditClick blank_row)).
      vm_compute. exists (Display blank_row false None).
      split; [left; reflexivity|reflexivity]. }
    apply (@reachable_step any_answer _ saved_blank R2).
    apply (@step_event any_answer (fire (EditClick blank_row) loaded_blank)
             EditFormSubmit).
    vm_compute. exists (EditForm blank_row (lit "Original Title") []).
    split; [left; reflexivity|exact I].
  - vm_compute. right. left. reflexivity.
Qed.

(* ================================================================== *)
(** * Further properties of [updateTodo] and [deleteTodo] *)

(** [updateTodo] in one equation, on any table. *)
Lemma updateTodo_unfold :
  forall (now : Date) (input : UpdateTodoInput.t) (srv : Server),
    updateTodo now input srv
    = match List.filter (eq_id (UpdateTodoInput.id input)) (todosTable srv) with
      | [] =>
          (Rejected (mkError (not_found_message (UpdateTodoInput.id input))),
           mkServer (List.map (rewrite_row now input) (todosTable srv))
                    (serverConsole srv
                       ++ [(lit "Todo update failed:",
                            mkError (not_found_message (UpdateTodoInput.id input)))]))
      | row :: _ =>
          (Resolved (updated_row now input row),
           mkServer (List.map (rewrite_row now input) (todosTable srv))
                    (serverConsole srv))
      end.
Proof.
  intros now [i [|t] [|d] [|c]] [tbl out];
    unfold updateTodo, try_catch, bind, execute, db_update;
    cbn [todosTable serverConsole UpdateTodoInput.id UpdateTodoInput.title
         UpdateTodoInput.description UpdateTodoInput.completed];
    destruct (List.filter (eq_id i) tbl) as [|row rest]; reflexivity.
Qed.

Lemma rewrite_row_id :
  forall now input row, Todo.id (rewrite_row now input row) = Todo.id row.
Proof.
  intros now input row. unfold rewrite_row.
  destruct (eq_id (UpdateTodoInput.id input) row); reflexivity.
Qed.

Lemma rewrite_row_other :
  forall now input row,
    Todo.id row <> UpdateTodoInput.id input -> rewrite_row now input row = row.
Proof.
  intros now input row H. unfold rewrite_row.
  apply eq_id_false in H. rewrite H. reflexivity.
Qed.

Lemma filter_rewrite_rows :
  forall now input i tbl,
    List.filter (eq_id i) (List.map (rewrite_row now input) tbl)
    = List.map (rewrite_row now input) (List.filter (eq_id i) tbl).
Proof.
  intros now input i tbl. rewrite filter_map_swap. f_equal.
  apply filter_ext. intros row. unfold eq_id. rewrite rewrite_row_id. reflexivity.
Qed.

Lemma filter_not_rewrite_rows :
  forall now input i tbl,
    List.filter (fun row => negb (eq_id i row)) (List.map (rewrite_row now input) tbl)
    = List.map (rewrite_row now input)
               (List.filter (fun row => negb (eq_id i row)) tbl).
Proof.
  intros now input i tbl. rewrite filter_map_swap. f_equal.
  apply filter_ext. intros row. unfold eq_id. rewrite rewrite_row_id. reflexivity.
Qed.

Lemma filter_empty_no_row :
  forall i tbl,
    List.filter (eq_id i) tbl = [] -> forall row, In row tbl -> Todo.id row <> i.
Proof.
  intros i tbl H row Hin Hid.
  assert (Hf : In row (List.filter (eq_id i) tbl))
    by (apply filter_In; split; [exact Hin|apply eq_id_true; exact Hid]).
  rewrite H in Hf. exact Hf.
Qed.

Lemma map_rewrite_untouched :
  forall now input tbl,
    (forall row, In row tbl -> Todo.id row <> UpdateTodoInput.id input) ->
    List.map (rewrite_row now input) tbl = tbl.
Proof.
  intros now input tbl H. rewrite <- (map_id tbl) at 2.
  apply map_ext_in. intros row Hrow. apply rewrite_row_other. apply H. exact Hrow.
Qed.

(** X1.  Whatever the input and the table, an update adds no row and removes
    none: afterwards the table has as many rows as before, and as many under
    each id; the rows with another id than the input's are exactly the ones
    it had; every row it holds has the id and the creation time of a row it
    held before; and its ids are distinct exactly when they were. *)
Theorem updateTodo_keeps_rows :
  forall (now : Date) (input : UpdateTodoInput.t) (srv : Server),
    let tbl' := todosTable (snd (updateTodo now input srv)) in
    List.length tbl' = List.length (todosTable srv) /\
    (forall i : Z,
       List.length (List.filter (eq_id i) tbl')
       = List.length (List.filter (eq_id i) (todosTable srv))) /\
    (forall row : Todo.t,
       Todo.id row <> UpdateTodoInput.id input ->
       (In row tbl' <-> In row (todosTable srv))) /\
    (forall row' : Todo.t,
       In row' tbl' ->
       exists row,
         In row (todosTable srv) /\
         Todo.id row = Todo.id row' /\
         Todo.created_at row = Todo.created_at row') /\
    (primary_key (todosTable srv) <-> primary_key tbl').
Proof.
  intros now input srv.
  assert (E : todosTable (snd (updateTodo now input srv))
              = List.map (rewrite_row now input) (todosTable srv)).
  { rewrite updateTodo_unfold.
    destruct (List.filter _ (todosTable srv)); reflexivity. }
  cbv zeta. rewrite E.
  split; [apply length_map|]. split.
  { intros i. rewrite filter_rewrite_rows. apply length_map. }
  split.
  { intros row Hne. split.
    - intros Hin. apply in_map_iff in Hin. destruct Hin as (r & Hr & Hin).
      assert (Hid : Todo.id r = Todo.id row)
        by (rewrite <- Hr; symmetry; apply rewrite_row_id).
      rewrite rewrite_row_other in Hr by congruence.
      subst r. exact Hin.
    - intros Hin. apply in_map_iff. exists row.
      split; [apply rewrite_row_other; exact Hne|exact Hin]. }
  split.
  { intros row' Hin. apply in_map_iff in Hin. destruct Hin as (r & <- & Hin).
    exists r. split; [exact Hin|]. split; [symmetry; apply rewrite_row_id|].
    unfold rewrite_row.
    destruct (eq_id (UpdateTodoInput.id input) r); reflexivity. }
  assert (Hid : List.map Todo.id (List.map (rewrite_row now input) (todosTable srv))
                = List.map Todo.id (todosTable srv)).
  { rewrite map_map. apply map_ext. intros row. apply rewrite_row_id. }
  unfold primary_key. rewrite Hid. reflexivity.
Qed.

(** X2.  On any table, an update resolves exactly when some row has the id.
    When it resolves, the returned row is in the table, has the id of the
    input and the clock's reading as [updated_at], and nothing is logged; when
    it rejects, the error is the not-found error, the table is as it was and
    exactly one line is logged. *)
Theorem updateTodo_resolves_iff_row :
  forall (now : Date) (input : UpdateTodoInput.t) (srv : Server),
    let o := fst (updateTodo now input srv) in
    let srv' := snd (updateTodo now input srv) in
    ((exists row, In row (todosTable srv) /\ Todo.id row = UpdateTodoInput.id input)
     <-> exists row', o = Resolved row') /\
    (forall row', o = Resolved row' ->
       In row' (todosTable srv') /\
       Todo.id row' = UpdateTodoInput.id input /\
       Todo.updated_at row' = now /\
       serverConsole srv' = serverConsole srv) /\
    (forall e, o = Rejected e ->
       e = mkError (not_found_message (UpdateTodoInput.id input)) /\
       todosTable srv' = todosTable srv /\
       serverConsole srv' = serverConsole srv ++ [(lit "Todo update failed:", e)]).
Proof.
  intros now input srv. cbv zeta. rewrite updateTodo_unfold.
  destruct (List.filter (eq_id (UpdateTodoInput.id input)) (todosTable srv))
    as [|row rest] eqn:F; cbn [fst snd todosTable serverConsole].
  - pose proof (filter_empty_no_row _ _ F) as Hnone.
    split; [|split].
    + split; [intros (row & Hin & Hid); exfalso; exact (Hnone row Hin Hid)|].
      intros (row' & H). discriminate H.
    + intros row' H. discriminate H.
    + intros e H. injection H as <-. split; [reflexivity|].
      split; [apply map_rewrite_untouched; exact Hnone|reflexivity].
  - assert (Hrow : In row (List.filter (eq_id (UpdateTodoInput.id input))
                                       (todosTable srv)))
      by (rewrite F; left; reflexivity).
    apply filter_In in Hrow. destruct Hrow as [Hin Hid]. apply eq_id_true in Hid.
    split; [|split].
    + split; [intros _; eexists; reflexivity|].
      intros _. exists row. split; assumption.
    + intros row' H. injection H as <-. split; [|split; [exact Hid|split; reflexivity]].
      apply in_map_iff. exists row. split; [|exact Hin].
      unfold rewrite_row. apply eq_id_true in Hid. rewrite Hid. reflexivity.
    + intros e H. discriminate H.
Qed.

Lemma updated_row_twice :
  forall now1 now2 first later row,
    updated_row now2 later (updated_row now1 first row)
    = updated_row now2 (merge_inputs first later) row.
Proof.
  intros now1 now2 [i1 [|t1] [|d1] [|c1]] [i2 [|t2] [|d2] [|c2]] row; reflexivity.
Qed.

Lemma rewrite_row_twice :
  forall now1 now2 first later row,
    UpdateTodoInput.id first = UpdateTodoInput.id later ->
    rewrite_row now2 later (rewrite_row now1 first row)
    = rewrite_row now2 (merge_inputs first later) row.
Proof.
  intros now1 now2 first later row Hid. unfold rewrite_row at 2.
  rewrite Hid. unfold rewrite_row.
  cbn [merge_inputs UpdateTodoInput.id].
  destruct (eq_id (UpdateTodoInput.id later) row) eqn:E.
  - assert (E' : eq_id (UpdateTodoInput.id later) (updated_row now1 first row) = true)
      by exact E.
    rewrite E'. apply updated_row_twice.
  - rewrite E. reflexivity.
Qed.

(** X3.  Two successive updates of one id amount to the single update that
    carries, for each field, the later input's value when it has one and the
    earlier input's otherwise, made at the later clock reading: both leave the
    same table and the second call returns what the single call returns. *)
Theorem updateTodo_twice_is_merged :
  forall (now1 now2 : Date) (first later : UpdateTodoInput.t) (srv : Server),
    UpdateTodoInput.id first = UpdateTodoInput.id later ->
    let srv1 := snd (updateTodo now1 first srv) in
    fst (updateTodo now2 later srv1)
    = fst (updateTodo now2 (merge_inputs first later) srv) /\
    todosTable (snd (updateTodo now2 later srv1))
    = todosTable (snd (updateTodo now2 (merge_inputs first later) srv)).
Proof.
  intros now1 now2 first later srv Hid. cbv zeta.
  assert (T1 : todosTable (snd (updateTodo now1 first srv))
               = List.map (rewrite_row now1 first) (todosTable srv)).
  { rewrite updateTodo_unfold. destruct (List.filter _ (todosTable srv)); reflexivity. }
  rewrite (updateTodo_unfold now2 later), (updateTodo_unfold now2 (merge_inputs first later)).
  rewrite T1, filter_rewrite_rows.
  cbn [merge_inputs UpdateTodoInput.id].
  rewrite map_map.
  assert (M : List.map (fun row => rewrite_row now2 later (rewrite_row now1 first row))
                       (todosTable srv)
              = List.map (rewrite_row now2 (merge_inputs first later)) (todosTable srv)).
  { apply map_ext. intros row. apply rewrite_row_twice. exact Hid. }
  rewrite M.
  destruct (List.filter (eq_id (UpdateTodoInput.id later)) (todosTable srv))
    as [|row rest] eqn:F; cbn [List.map fst snd todosTable].
  - split; reflexivity.
  - split; [|reflexivity]. f_equal.
    assert (Hrow : In row (List.filter (eq_id (UpdateTodoInput.id later))
                                       (todosTable srv)))
      by (rewrite F; left; reflexivity).
    apply filter_In in Hrow. destruct Hrow as [_ E].
    unfold rewrite_row. rewrite Hid, E. apply updated_row_twice.
Qed.

(** A title update followed by a description update of the same row. *)
Lemma updateTodo_twice_is_merged_witness :
  fst (updateTodo 3000 description_null_input
         (snd (updateTodo 2000 title_only_input
                          (mkServer [original_row; second_row] []))))
  = fst (updateTodo 3000 (merge_inputs title_only_input description_null_input)
                    (mkServer [original_row; second_row] [])) /\
  todosTable (snd (updateTodo 3000 description_null_input
                     (snd (updateTodo 2000 title_only_input
                                      (mkServer [original_row; second_row] [])))))
  = todosTable (snd (updateTodo 3000
                       (merge_inputs title_only_input description_null_input)
                       (mkServer [original_row; second_row] []))).
Proof.
  apply (updateTodo_twice_is_merged 2000 3000 title_only_input description_null_input
           (mkServer [original_row; second_row] [])).
  reflexivity.
Defined.

Lemma deleteTodo_unfold :
  forall (input : DeleteTodoInput.t) (srv : Server),
    deleteTodo input srv
    = (Resolved
         (DeleteResult.mk
            (0 <? Z.of_nat
                    (List.length
                       (List.filter (eq_id (DeleteTodoInput.id input))
                                    (todosTable srv))))),
       mkServer
         (List.filter (fun row => negb (eq_id (DeleteTodoInput.id input) row))
                      (todosTable srv))
         (serverConsole srv)).
Proof. intros [i] [tbl out]. reflexivity. Qed.

Lemma no_row_after_delete :
  forall i tbl row,
    In row (List.filter (fun r => negb (eq_id i r)) tbl) -> Todo.id row <> i.
Proof.
  intros i tbl row H. apply filter_In in H. destruct H as [_ H].
  apply negb_true_iff in H. apply eq_id_false. exact H.
Qed.

Lemma primary_key_filter :
  forall (w : Todo.t -> bool) (tbl : Table),
    primary_key tbl -> primary_key (List.filter w tbl).
Proof.
  unfold primary_key. intros w. induction tbl as [|row tbl IH]; intros H; simpl.
  - constructor.
  - inversion H as [|x l Hnot Hrest]; subst.
    destruct (w row); [|apply IH; exact Hrest].
    simpl. constructor; [|apply IH; exact Hrest].
    intros Hin. apply Hnot. apply in_map_iff in Hin.
    destruct Hin as (r & Hr & Hin). apply filter_In in Hin.
    apply in_map_iff. exists r. split; [exact Hr|exact (proj1 Hin)].
Qed.

(** X4.  Deleting is idempotent: after a delete no row has the id, a second
    delete of the same id resolves to [success = false] and leaves server and
    table exactly as the first one left them; and a delete keeps distinct ids
    distinct. *)
Theorem deleteTodo_twice :
  forall (input : DeleteTodoInput.t) (srv : Server),
    let srv1 := snd (deleteTodo input srv) in
    (forall row, In row (todosTable srv1) -> Todo.id row <> DeleteTodoInput.id input) /\
    deleteTodo input srv1 = (Resolved (DeleteResult.mk false), srv1) /\
    (primary_key (todosTable srv) -> primary_key (todosTable srv1)).
Proof.
  intros input srv. cbv zeta. rewrite (deleteTodo_unfold input srv).
  cbn [snd todosTable]. split; [|split].
  - intros row. apply no_row_after_delete.
  - rewrite deleteTodo_unfold. cbn [todosTable serverConsole].
    rewrite (filter_nothing _ (eq_id (DeleteTodoInput.id input))).
    + rewrite filter_everything; [reflexivity|].
      intros row Hrow. apply negb_true_iff, eq_id_false.
      apply (no_row_after_delete _ _ _ Hrow).
    + intros row Hrow. apply eq_id_false. apply (no_row_after_delete _ _ _ Hrow).
  - apply primary_key_filter.
Qed.

(** X5.  An update of an id that was just deleted fails with the not-found
    error, whatever the table held before, and leaves the table as the delete
    left it. *)
Theorem updateTodo_after_deleteTodo :
  forall (now : Date) (input : UpdateTodoInput.t) (srv : Server),
    let srv1 := snd (deleteTodo (DeleteTodoInput.mk (UpdateTodoInput.id input)) srv) in
    fst (updateTodo now input srv1)
    = Rejected (mkError (not_found_message (UpdateTodoInput.id input))) /\
    todosTable (snd (updateTodo now input srv1)) = todosTable srv1.
Proof.
  intros now input srv. cbv zeta. rewrite deleteTodo_unfold.
  cbn [snd DeleteTodoInput.id].
  rewrite updateTodo_on_missing; [split; reflexivity|].
  cbn [todosTable]. intros row. apply no_row_after_delete.
Qed.

Lemma filter_eq_id_after_delete :
  forall (i j : Z) (tbl : Table),
    j <> i ->
    List.filter (eq_id j) (List.filter (fun row => negb (eq_id i row)) tbl)
    = List.filter (eq_id j) tbl.
Proof.
  intros i j tbl Hne. induction tbl as [|row tbl IH]; simpl; [reflexivity|].
  destruct (eq_id i row) eqn:Ei; simpl.
  - apply eq_id_true in Ei.
    assert (Ej : eq_id j row = false) by (apply eq_id_false; congruence).
    rewrite Ej. exact IH.
  - destruct (eq_id j row); [f_equal|]; exact IH.
Qed.

(** X6.  A delete and an update of different ids do not interfere: in either
    order they leave the same table, the update returns what it returns on
    its own and so does the delete. *)
Theorem updateTodo_deleteTodo_commute :
  forall (now : Date) (input : UpdateTodoInput.t) (i : Z) (srv : Server),
    UpdateTodoInput.id input <> i ->
    let deleted := deleteTodo (DeleteTodoInput.mk i) srv in
    let updated := updateTodo now input srv in
    todosTable (snd (updateTodo now input (snd deleted)))
    = todosTable (snd (deleteTodo (DeleteTodoInput.mk i) (snd updated))) /\
    fst (updateTodo now input (snd deleted)) = fst updated /\
    fst (deleteTodo (DeleteTodoInput.mk i) (snd updated)) = fst deleted.
Proof.
  intros now input i srv Hne. cbv zeta.
  assert (T : todosTable (snd (updateTodo now input srv))
              = List.map (rewrite_row now input) (todosTable srv)).
  { rewrite updateTodo_unfold. destruct (List.filter _ (todosTable srv)); reflexivity. }
  rewrite !deleteTodo_unfold. cbn [fst snd DeleteTodoInput.id todosTable].
  rewrite T, filter_rewrite_rows, filter_not_rewrite_rows, length_map.
  split; [|split; [|reflexivity]].
  - rewrite updateTodo_unfold. cbn [todosTable].
    destruct (List.filter (eq_id (UpdateTodoInput.id input)) _); reflexivity.
  - rewrite !updateTodo_unfold. cbn [todosTable].
    rewrite (filter_eq_id_after_delete _ _ _ Hne).
    destruct (List.filter (eq_id (UpdateTodoInput.id input)) (todosTable srv));
      reflexivity.
Qed.

(** Updating the first row of a table while the second is deleted. *)
Lemma updateTodo_deleteTodo_commute_witness :
  todosTable (snd (updateTodo 2000 title_only_input
                     (snd (deleteTodo (DeleteTodoInput.mk 2)
                                      (mkServer [original_row; second_row] [])))))
  = todosTable (snd (deleteTodo (DeleteTodoInput.mk 2)
                       (snd (updateTodo 2000 title_only_input
                                        (mkServer [original_row; second_row] []))))) /\
  fst (updateTodo 2000 title_only_input
         (snd (deleteTodo (DeleteTodoInput.mk 2)
                          (mkServer [original_row; second_row] []))))
  = fst (updateTodo 2000 title_only_input (mkServer [original_row; second_row] [])) /\
  fst (deleteTodo (DeleteTodoInput.mk 2)
         (snd (updateTodo 2000 title_only_input
                          (mkServer [original_row; second_row] []))))
  = fst (deleteTodo (DeleteTodoInput.mk 2) (mkServer [original_row; second_row] [])).
Proof.
  apply (updateTodo_deleteTodo_commute 2000 title_only_input 2
           (mkServer [original_row; second_row] [])).
  simpl. discriminate.
Defined.

(* ================================================================== *)
(** * Further properties of the view: forms and render *)

(** X7.  The four inputs are controlled without loss: after a change event
    carrying [v], the input shows exactly [v] again, although an empty
    description is stored as [null].  A change event touches the one field it
    is for: the other field of its form, the other form, the list, the loading
    flag, the todo being edited and the console are as they were, and nothing
    is sent. *)
Theorem inputs_echo_typed_value :
  forall (v : jsstring) (p : Page),
    let st := view p in
    let stored := match v with [] => null | _ :: _ => value v end in
    (run (onChangeTitle v) p
     = (mkPage
          (mkViewState (todos st) (isLoading st) (editingTodo st)
             (CreateTodoInput.mk v (CreateTodoInput.description (formData st)))
             (editFormData st))
          (console p),
        None) /\
     titleInput (render (view (fst (run (onChangeTitle v) p)))) = v /\
     descriptionInput (render (view (fst (run (onChangeTitle v) p))))
     = descriptionInput (render st)) /\
    (run (onChangeDescription v) p
     = (mkPage
          (mkViewState (todos st) (isLoading st) (editingTodo st)
             (CreateTodoInput.mk (CreateTodoInput.title (formData st)) (defined stored))
             (editFormData st))
          (console p),
        None) /\
     descriptionInput (render (view (fst (run (onChangeDescription v) p)))) = v /\
     titleInput (render (view (fst (run (onChangeDescription v) p))))
     = titleInput (render st)) /\
    (run (onChangeEditTitle v) p
     = (mkPage
          (mkViewState (todos st) (isLoading st) (editingTodo st) (formData st)
             (EditFormData.mk v (EditFormData.description (editFormData st))))
          (console p),
        None) /\
     forall t,
       is_editing st t = true ->
       card (view (fst (run (onChangeEditTitle v) p))) t
       = EditForm t v (or_empty (EditFormData.description (editFormData st)))) /\
    (run (onChangeEditDescription v) p
     = (mkPage
          (mkViewState (todos st) (isLoading st) (editingTodo st) (formData st)
             (EditFormData.mk (EditFormData.title (editFormData st)) stored))
          (console p),
        None) /\
     forall t,
       is_editing st t = true ->
       card (view (fst (run (onChangeEditDescription v) p))) t
       = EditForm t (EditFormData.title (editFormData st)) v).
Proof.
  intros v p st stored. subst st stored.
  split; [|split; [|split]].
  - split; [reflexivity|]. split; reflexivity.
  - split; [destruct v; reflexivity|]. split; [destruct v; reflexivity|reflexivity].
  - split; [reflexivity|]. intros t Ht. unfold card, is_editing in *. simpl.
    rewrite Ht. reflexivity.
  - split; [destruct v; reflexivity|]. intros t Ht.
    unfold card, is_editing in *. simpl. rewrite Ht. destruct v; reflexivity.
Qed.

(** X8.  [handleEditSubmit] sends nothing when no todo is being edited or when
    the edited title is empty after trimming.  Otherwise it sends one update
    call with the id of the todo being edited, the title and the description
    of the edit form, and no completed field; nothing changes before the
    answer.  When the call resolves, the items with that id are replaced by
    the returned record, edit mode is left and the edit form is blanked, on
    whatever page the answer arrives; when it rejects, edit mode and edit form
    stay as they are and the failure is logged. *)
Theorem handleEditSubmit_spec :
  forall p : Page,
    let st := view p in
    (editingTodo st = null -> run (handleEditSubmit st) p = (p, None)) /\
    (trim (EditFormData.title (editFormData st)) = [] ->
     run (handleEditSubmit st) p = (p, None)) /\
    (forall editing : Todo.t,
       editingTodo st = value editing ->
       trim (EditFormData.title (editFormData st)) <> [] ->
       exists k,
         run (handleEditSubmit st) p
         = (p, Some (Suspended
                       (updateTodo_mutate
                          (UpdateTodoInput.mk
                             (Todo.id editing)
                             (defined (EditFormData.title (editFormData st)))
                             (defined (EditFormData.description (editFormData st)))
                             undefined))
                       k)) /\
         (forall (response : Todo.t) (q : Page),
            run (k (Resolved response)) q
            = (mkPage
                 (mkViewState
                    (List.map
                       (fun t => if Todo.id t =? Todo.id editing then response else t)
                       (todos (view q)))
                    (isLoading (view q)) null (formData (view q))
                    (EditFormData.mk [] null))
                 (console q),
               None)) /\
         (forall (error : Error) (q : Page),
            run (k (Rejected error)) q
            = (mkPage (view q) (console q ++ [(lit "Failed to update todo:", error)]),
               None))).
Proof.
  intros p st. unfold handleEditSubmit. split; [|split].
  - intros E. rewrite E. reflexivity.
  - intros E. rewrite E. destruct (editingTodo st); reflexivity.
  - intros editing E N. rewrite E.
    destruct (negb (truthy (trim (EditFormData.title (editFormData st))))) eqn:T.
    + exfalso. apply N. apply not_truthy_iff. exact T.
    + eexists. split; [reflexivity|]. split; intros; reflexivity.
Qed.

Lemma at_most_one_with_id :
  forall (i : Z) (l : list Todo.t),
    NoDup (List.map Todo.id l) ->
    Nat.le (List.length (List.filter (fun t => i =? Todo.id t) l)) 1.
Proof.
  intros i. induction l as [|t l IH]; intros H; simpl; [lia|].
  inversion H as [|x xs Hnot Hrest]; subst.
  destruct (Z.eqb_spec i (Todo.id t)) as [E|N]; [|apply IH; exact Hrest].
  simpl. rewrite filter_nothing; [simpl; lia|].
  intros t' Ht'. apply Z.eqb_neq. intros E'. apply Hnot.
  rewrite <- E, E'. apply in_map. exact Ht'.
Qed.

(** X9.  Whenever the page shows cards, there is one card per todo of the
    list, in the order of the list; a card is the edit form exactly when its
    todo has the id of the todo being edited, so no card is when nothing is
    being edited; and when the ids of the list are distinct at most one card
    is in edit mode. *)
Theorem render_cards :
  forall (st : ViewState) (cards : list Card),
    todoList (render st) = Cards cards ->
    List.map card_todo cards = todos st /\
    (forall c, In c cards ->
               (is_edit_formb c = true <->
                exists editing, editingTodo st = value editing /\
                                Todo.id editing = Todo.id (card_todo c))) /\
    (editingTodo st = null -> List.filter is_edit_formb cards = []) /\
    (NoDup (List.map Todo.id (todos st)) ->
     (List.length (List.filter is_edit_formb cards) <= 1)%nat).
Proof.
  intros st cards. unfold render. cbn [todoList].
  destruct (Z.of_nat (List.length (todos st)) =? 0); [discriminate|].
  intros H. injection H as <-.
  assert (Htodo : forall t, card_todo (card st t) = t)
    by (intros t; unfold card; destruct (is_editing st t); reflexivity).
  assert (Hedit : forall t, is_edit_formb (card st t) = is_editing st t)
    by (intros t; unfold card; destruct (is_editing st t); reflexivity).
  split; [|split; [|split]].
  - rewrite map_map. rewrite <- (map_id (todos st)) at 2.
    apply map_ext. exact Htodo.
  - intros c Hc. apply in_map_iff in Hc. destruct Hc as (t & <- & _).
    rewrite Hedit, Htodo. unfold is_editing.
    destruct (editingTodo st) as [|editing].
    + split; [discriminate|]. intros (e & He & _). discriminate He.
    + rewrite Z.eqb_eq. split.
      * intros E. exists editing. split; [reflexivity|exact E].
      * intros (e & He & E). injection He as <-. exact E.
  - intros E. apply filter_nothing. intros c Hc.
    apply in_map_iff in Hc. destruct Hc as (t & <- & _).
    rewrite Hedit. unfold is_editing. rewrite E. reflexivity.
  - intros Hnodup. rewrite filter_map_swap, length_map.
    rewrite (filter_ext _ (is_editing st) Hedit).
    unfold is_editing. destruct (editingTodo st) as [|editing].
    + rewrite filter_nothing; [simpl; lia|reflexivity].
    + apply at_most_one_with_id. exact Hnodup.
Qed.

(** The list of the two rows with the first one in edit mode. *)
Lemma render_cards_witness :
  List.map card_todo
    [EditForm original_row (lit "Original Title") (lit "Original description");
     Display second_row true None]
  = [original_row; second_row] /\
  (forall c,
     In c [EditForm original_row (lit "Original Title") (lit "Original description");
           Display second_row true None] ->
     (is_edit_formb c = true <->
      exists editing, value original_row = value editing /\
                      Todo.id editing = Todo.id (card_todo c))) /\
  (value original_row = null ->
   List.filter is_edit_formb
     [EditForm original_row (lit "Original Title") (lit "Original description");
      Display second_row true None] = []) /\
  (NoDup (List.map Todo.id [original_row; second_row]) ->
   (List.length
      (List.filter is_edit_formb
         [EditForm original_row (lit "Original Title") (lit "Original description");
          Display second_row true None]) <= 1)%nat).
Proof.
  apply (render_cards
           (mkViewState [original_row; second_row] false (value original_row)
              (CreateTodoInput.mk [] (defined null))
              (EditFormData.mk (lit "Original Title")
                               (value (lit "Original description"))))).
  reflexivity.
Defined.

(** X10.  [startEdit] sends nothing and touches neither the list nor the add
    form; on the page it leaves, a todo's card is the edit form, filled with
    the title and the description of the todo clicked (the empty string for a
    null description), exactly when it has the id of that todo.  [cancelEdit]
    after it leaves no card in edit mode and a blank edit form, again without
    a call. *)
Theorem startEdit_then_cancelEdit :
  forall (todo : Todo.t) (p : Page),
    exists p1 p2,
      run (startEdit todo) p = (p1, None) /\
      run cancelEdit p1 = (p2, None) /\
      console p1 = console p /\ console p2 = console p /\
      todos (view p1) = todos (view p) /\ formData (view p1) = formData (view p) /\
      isLoading (view p1) = isLoading (view p) /\
      (forall t,
         card (view p1) t
         = if Todo.id todo =? Todo.id t
           then EditForm t (Todo.title todo) (or_empty (Todo.description todo))
           else card (mkViewState (todos (view p)) (isLoading (view p)) null
                                  (formData (view p)) (editFormData (view p))) t) /\
      view p2
      = mkViewState (todos (view p)) (isLoading (view p)) null (formData (view p))
                    (EditFormData.mk [] null) /\
      (forall t, is_edit_formb (card (view p2) t) = false).
Proof.
  intros todo p. eexists. eexists. split; [reflexivity|]. split; [reflexivity|].
  simpl. repeat split.
Qed.

(** X11.  On every rendered page the paragraph of a card on display is there
    exactly when the todo's description is a non-empty string (a null and an
    empty description look the same), its checkbox shows the todo's completed
    flag, and the badges add up: completed plus remaining is the total, and
    remaining is the number of todos not completed. *)
Theorem render_display_and_badges :
  forall st : ViewState,
    (forall t checked paragraph,
       card st t = Display t checked paragraph ->
       checked = Todo.completed t /\
       (paragraph = None <->
        Todo.description t = null \/ Todo.description t = value []) /\
       (forall d, paragraph = Some d <-> Todo.description t = value d /\ d <> [])) /\
    (forall c, counters (render st) = Some c ->
       completedBadge c + remainingBadge c = totalBadge c /\
       remainingBadge c
       = Z.of_nat (List.length
                     (List.filter (fun t => negb (Todo.completed t)) (todos st)))).
Proof.
  intros st. split.
  - intros t checked paragraph. unfold card.
    destruct (is_editing st t); [discriminate|].
    intros H. injection H as <- <-. split; [reflexivity|].
    destruct (Todo.description t) as [|[|c d]]; simpl; split.
    + split; [intros _; left; reflexivity|reflexivity].
    + intros d. split; [discriminate|]. intros [H _]. discriminate H.
    + split; [intros _; right; reflexivity|reflexivity].
    + intros d. split; [discriminate|]. intros [H N]. injection H as <-.
      exfalso. apply N. reflexivity.
    + split; [discriminate|]. intros [H|H]; discriminate H.
    + intros d'. split.
      * intros H. injection H as <-. split; [reflexivity|discriminate].
      * intros [H _]. injection H as <-. reflexivity.
  - intros c. unfold render, totalCount, completedCount. cbn [counters].
    destruct (0 <? Z.of_nat (List.length (todos st))); [|discriminate].
    intros H. injection H as <-. simpl.
    pose proof (filter_length Todo.completed (todos st)). lia.
Qed.

(* ================================================================== *)
(** * Further properties of the view: what is sent *)

Lemma trimStart_nil_iff :
  forall s : jsstring, trimStart s = [] <-> forallb isWhiteSpace s = true.
Proof.
  induction s as [|c s IH]; simpl.
  - split; reflexivity.
  - destruct (isWhiteSpace c); simpl; [exact IH|].
    split; intros H; discriminate H.
Qed.

Lemma trimStart_head :
  forall (s r : jsstring) (c : char16), trimStart s = c :: r -> isWhiteSpace c = false.
Proof.
  induction s as [|c' s IH]; simpl; intros r c H; [discriminate H|].
  destruct (isWhiteSpace c') eqn:E; [exact (IH _ _ H)|].
  injection H as <- _. exact E.
Qed.

Lemma forallb_rev :
  forall (w : char16 -> bool) (s : jsstring),
    forallb w (List.rev s) = true <-> forallb w s = true.
Proof.
  intros w s. rewrite !forallb_forall.
  split; intros H x Hx; apply H; [apply in_rev in Hx|apply in_rev]; exact Hx.
Qed.

Lemma trim_nil_iff :
  forall s : jsstring, trim s = [] <-> forallb isWhiteSpace s = true.
Proof.
  intros s. unfold trim, trimEnd. split.
  - intros H.
    assert (H' : trimStart (List.rev (trimStart s)) = []).
    { rewrite <- (rev_involutive (trimStart _)). rewrite H. reflexivity. }
    apply trimStart_nil_iff in H'. apply (proj1 (forallb_rev _ _)) in H'.
    destruct (trimStart s) as [|c r] eqn:E; [apply trimStart_nil_iff; exact E|].
    cbn [forallb] in H'. rewrite (trimStart_head _ _ _ E) in H'. discriminate H'.
  - intros H. apply trimStart_nil_iff in H. rewrite H. reflexivity.
Qed.

(** X12.  Both forms reject a title exactly when every character of it is
    whitespace (an ECMAScript WhiteSpace or LineTerminator code unit; the
    empty title included): then the submit handler sends nothing and changes
    nothing.  A title with any other character is sent, and it is sent as
    typed, surrounding whitespace included: the call of the add form carries
    the form data itself and the call of the edit form the edit form's title. *)
Theorem submit_rejects_blank_titles :
  forall p : Page,
    let st := view p in
    (forallb isWhiteSpace (CreateTodoInput.title (formData st)) = true ->
     run (handleSubmit st) p = (p, None)) /\
    (forallb isWhiteSpace (CreateTodoInput.title (formData st)) = false ->
     exists k,
       snd (run (handleSubmit st) p)
       = Some (Suspended (createTodo_mutate (formData st)) k)) /\
    (forallb isWhiteSpace (EditFormData.title (editFormData st)) = true ->
     run (handleEditSubmit st) p = (p, None)) /\
    (forall editing,
       editingTodo st = value editing ->
       forallb isWhiteSpace (EditFormData.title (editFormData st)) = false ->
       exists input k,
         snd (run (handleEditSubmit st) p) = Some (Suspended (updateTodo_mutate input) k) /\
         UpdateTodoInput.title input = defined (EditFormData.title (editFormData st))).
Proof.
  intros p st.
  assert (G : forall s, negb (truthy (trim s)) = forallb isWhiteSpace s).
  { intros s. destruct (forallb isWhiteSpace s) eqn:E.
    - apply not_truthy_iff. apply trim_nil_iff. exact E.
    - destruct (negb (truthy (trim s))) eqn:T; [|reflexivity].
      apply not_truthy_iff in T. apply trim_nil_iff in T. congruence. }
  unfold handleSubmit, handleEditSubmit. rewrite !G.
  split; [|split; [|split]].
  - intros E. rewrite E. reflexivity.
  - intros E. rewrite E. eexists. reflexivity.
  - intros E. rewrite E. destruct (editingTodo st); reflexivity.
  - intros editing Hed E. rewrite Hed, E. eexists. eexists. split; reflexivity.
Qed.

(** X13.  A checkbox clicked twice before the first answer arrives sends the
    same update twice: the first click changes nothing on the page, so the
    second handler reads the same todo and asks again for the negation of the
    same completed flag, not for the flag to be flipped back. *)
Theorem double_toggle_sends_same_update :
  forall (todo : Todo.t) (b : Browser),
    let r := Request (updateTodo_mutate
                        (UpdateTodoInput.mk (Todo.id todo) undefined undefined
                                            (defined (negb (Todo.completed todo))))) in
    page (fire (CheckedChange todo) b) = page b /\
    (forall ev, offers (render (view (page b))) ev ->
                offers (render (view (page (fire (CheckedChange todo) b)))) ev) /\
    sent (fire (CheckedChange todo) (fire (CheckedChange todo) b)) = sent b ++ [r; r] /\
    List.length (inflight (fire (CheckedChange todo) (fire (CheckedChange todo) b)))
    = S (S (List.length (inflight b))).
Proof.
  intros todo b. cbv zeta. split; [reflexivity|]. split; [intros ev H; exact H|].
  split.
  - unfold fire, dispatch. simpl. rewrite <- app_assoc. reflexivity.
  - unfold fire, dispatch. simpl. rewrite !length_app. simpl. lia.
Qed.

(* ================================================================== *)
(** * Further properties: the view against the handlers *)

Lemma replace_row_in_place :
  forall (pre post : list Todo.t) (row response : Todo.t),
    (forall r, In r pre -> Todo.id r <> Todo.id row) ->
    (forall r, In r post -> Todo.id r <> Todo.id row) ->
    List.map (fun t => if Todo.id t =? Todo.id row then response else t)
             (pre ++ row :: post)
    = pre ++ response :: post.
Proof.
  intros pre post row response Hpre Hpost.
  rewrite map_app. simpl. rewrite Z.eqb_refl.
  rewrite (map_untouched _ (fun t => Todo.id t =? Todo.id row) (fun _ => response) pre),
          (map_untouched _ (fun t => Todo.id t =? Todo.id row) (fun _ => response) post).
  - reflexivity.
  - intros r Hr. apply Z.eqb_neq. apply Hpost. exact Hr.
  - intros r Hr. apply Z.eqb_neq. apply Hpre. exact Hr.
Qed.

(** X14.  A completion toggle served by [updateTodo] keeps the list of the
    view equal to the table: if they are equal when the call is served and
    the answer is applied, and a row has the id of the todo clicked, the call
    resolves and the list is again the table afterwards.  The stored flag
    becomes the negation of the flag the view was showing; title and
    description are the stored row's. *)
Theorem toggle_keeps_view_in_sync :
  forall (now : Date) (todo row : Todo.t) (p q : Page) (srv : Server),
    primary_key (todosTable srv) ->
    In row (todosTable srv) ->
    Todo.id row = Todo.id todo ->
    todos (view q) = todosTable srv ->
    exists input k row' srv' q',
      run (handleToggleComplete todo) p
      = (p, Some (Suspended (updateTodo_mutate input) k)) /\
      updateTodo now input srv = (Resolved row', srv') /\
      run (k (Resolved row')) q = (q', None) /\
      todos (view q') = todosTable srv' /\
      In row' (todos (view q')) /\
      Todo.completed row' = negb (Todo.completed todo) /\
      Todo.title row' = Todo.title row /\
      Todo.description row' = Todo.description row.
Proof.
  intros now todo row p q [tbl out] Hpk Hin Hid Hsync. simpl in *.
  destruct (primary_key_split _ _ Hpk Hin) as (pre & post & -> & Hpre & Hpost).
  eexists. eexists. eexists. eexists. eexists.
  split; [reflexivity|]. split.
  { apply updateTodo_on_row; [exact Hid|exact Hpre|exact Hpost]. }
  split; [reflexivity|]. simpl. rewrite Hsync, <- Hid.
  rewrite (replace_row_in_place _ _ _ _ Hpre Hpost).
  split; [reflexivity|]. split; [apply in_or_app; right; left; reflexivity|].
  repeat split.
Qed.

(** The stored row toggled from a page that lists it. *)
Lemma toggle_keeps_view_in_sync_witness :
  exists input k row' srv' q',
    run (handleToggleComplete original_row) (mkPage initialState [])
    = (mkPage initialState [], Some (Suspended (updateTodo_mutate input) k)) /\
    updateTodo 2000 input (mkServer [original_row; second_row] [])
    = (Resolved row', srv') /\
    run (k (Resolved row'))
        (mkPage (setTodos (fun _ => [original_row; second_row]) initialState) [])
    = (q', None) /\
    todos (view q') = todosTable srv' /\
    In row' (todos (view q')) /\
    Todo.completed row' = negb (Todo.completed original_row) /\
    Todo.title row' = Todo.title original_row /\
    Todo.description row' = Todo.description original_row.
Proof.
  apply (toggle_keeps_view_in_sync 2000 original_row original_row
           (mkPage initialState [])
           (mkPage (setTodos (fun _ => [original_row; second_row]) initialState) [])
           (mkServer [original_row; second_row] [])).
  - unfold primary_key. simpl.
    constructor; [intros [H|[]]; discriminate H|].
    constructor; [intros []|constructor].
  - left. reflexivity.
  - reflexivity.
  - reflexivity.
Defined.

(** X15.  An edit saved through [updateTodo] keeps the list of the view equal
    to the table in the same way; the stored row takes the title and the
    description of the edit form, keeps its completed flag, and the view
    leaves edit mode. *)
Theorem edit_keeps_view_in_sync :
  forall (now : Date) (editing row : Todo.t) (p q : Page) (srv : Server),
    primary_key (todosTable srv) ->
    In row (todosTable srv) ->
    Todo.id row = Todo.id editing ->
    todos (view q) = todosTable srv ->
    editingTodo (view p) = value editing ->
    trim (EditFormData.title (editFormData (view p))) <> [] ->
    exists input k row' srv' q',
      run (handleEditSubmit (view p)) p
      = (p, Some (Suspended (updateTodo_mutate input) k)) /\
      updateTodo now input srv = (Resolved row', srv') /\
      run (k (Resolved row')) q = (q', None) /\
      todos (view q') = todosTable srv' /\
      In row' (todos (view q')) /\
      Todo.title row' = EditFormData.title (editFormData (view p)) /\
      Todo.description row' = EditFormData.description (editFormData (view p)) /\
      Todo.completed row' = Todo.completed row /\
      editingTodo (view q') = null.
Proof.
  intros now editing row p q [tbl out] Hpk Hin Hid Hsync Hed Htitle. simpl in *.
  destruct (primary_key_split _ _ Hpk Hin) as (pre & post & -> & Hpre & Hpost).
  unfold handleEditSubmit. rewrite Hed.
  destruct (negb (truthy (trim (EditFormData.title (editFormData (view p)))))) eqn:T.
  { exfalso. apply Htitle. apply not_truthy_iff. exact T. }
  eexists. eexists. eexists. eexists. eexists.
  split; [reflexivity|]. split.
  { apply updateTodo_on_row; [exact Hid|exact Hpre|exact Hpost]. }
  split; [reflexivity|]. simpl. rewrite Hsync, <- Hid.
  rewrite (replace_row_in_place _ _ _ _ Hpre Hpost).
  split; [reflexivity|]. split; [apply in_or_app; right; left; reflexivity|].
  repeat split.
Qed.

(** The stored row renamed from the edit form. *)
Lemma edit_keeps_view_in_sync_witness :
  exists input k row' srv' q',
    run (handleEditSubmit (view editing_page)) editing_page
    = (editing_page, Some (Suspended (updateTodo_mutate input) k)) /\
    updateTodo 2000 input (mkServer [original_row; second_row] [])
    = (Resolved row', srv') /\
    run (k (Resolved row')) editing_page = (q', None) /\
    todos (view q') = todosTable srv' /\
    In row' (todos (view q')) /\
    Todo.title row' = EditFormData.title (editFormData (view editing_page)) /\
    Todo.description row' = EditFormData.description (editFormData (view editing_page)) /\
    Todo.completed row' = Todo.completed original_row /\
    editingTodo (view q') = null.
Proof.
  apply (edit_keeps_view_in_sync 2000 original_row original_row
           editing_page editing_page (mkServer [original_row; second_row] [])).
  - unfold primary_key. simpl.
    constructor; [intros [H|[]]; discriminate H|].
    constructor; [intros []|constructor].
  - left. reflexivity.
  - reflexivity.
  - reflexivity.
  - reflexivity.
  - vm_compute. discriminate.
Defined.

(** X16.  A delete served by [deleteTodo] keeps the list of the view equal to
    the table, whether or not a row had the id; and when the call rejects the
    list is left as it is, the item still on display, and the failure is
    logged. *)
Theorem delete_keeps_view_in_sync :
  forall (todoId : Z) (p q : Page) (srv : Server),
    todos (view q) = todosTable srv ->
    exists k result srv' q',
      run (handleDelete todoId) p
      = (p, Some (Suspended (deleteTodo_mutate (DeleteTodoInput.mk todoId)) k)) /\
      deleteTodo (DeleteTodoInput.mk todoId) srv = (Resolved result, srv') /\
      run (k (Resolved result)) q = (q', None) /\
      todos (view q') = todosTable srv' /\
      (forall error,
         run (k (Rejected error)) q
         = (mkPage (view q) (console q ++ [(lit "Failed to delete todo:", error)]),
            None)).
Proof.
  intros todoId p q srv Hsync.
  eexists. eexists. eexists. eexists.
  split; [reflexivity|]. split; [apply deleteTodo_unfold|].
  split; [reflexivity|]. simpl. rewrite Hsync. split; [reflexivity|].
  intros error. reflexivity.
Qed.

(** The second of two stored rows deleted from a page that lists both. *)
Lemma delete_keeps_view_in_sync_witness :
  exists k result srv' q',
    run (handleDelete 2) (mkPage initialState [])
    = (mkPage initialState [],
       Some (Suspended (deleteTodo_mutate (DeleteTodoInput.mk 2)) k)) /\
    deleteTodo (DeleteTodoInput.mk 2) (mkServer [original_row; second_row] [])
    = (Resolved result, srv') /\
    run (k (Resolved result))
        (mkPage (setTodos (fun _ => [original_row; second_row]) initialState) [])
    = (q', None) /\
    todos (view q') = todosTable srv' /\
    (forall error,
       run (k (Rejected error))
           (mkPage (setTodos (fun _ => [original_row; second_row]) initialState) [])
       = (mkPage (view (mkPage (setTodos (fun _ => [original_row; second_row])
                                         initialState) []))
                 (console (mkPage (setTodos (fun _ => [original_row; second_row])
                                            initialState) [])
                    ++ [(lit "Failed to delete todo:", error)]),
          None)).
Proof.
  apply (delete_keeps_view_in_sync 2 (mkPage initialState [])
           (mkPage (setTodos (fun _ => [original_row; second_row]) initialState) [])
           (mkServer [original_row; second_row] [])).
  reflexivity.
Defined.

(* ================================================================== *)
(** * Further properties: the loading flag over the event loop *)

Lemma handler_loading :
  forall (p : Page) (ev : ui_event),
    offers (render (view p)) ev ->
    match run (handler (view p) ev) p with
    | (p', None) => isLoading (view p') = isLoading (view p)
    | (p', Some s) =>
        finishes s /\
        if is_create s
        then isLoading (view p) = false /\ isLoading (view p') = true
        else isLoading (view p') = isLoading (view p)
    end.
Proof.
  intros p ev Hev. destruct ev; simpl in *; try reflexivity.
  - unfold handleSubmit.
    destruct (negb (truthy (trim (CreateTodoInput.title (formData (view p))))));
      simpl; [reflexivity|].
    split; [|split; [exact Hev|reflexivity]].
    intros [response|error] q; eexists; split; reflexivity.
  - split; [|reflexivity]. intros [response|error] q; eexists; split; reflexivity.
  - split; [|reflexivity]. intros [result|error] q; eexists; split; reflexivity.
  - unfold handleEditSubmit. destruct (editingTodo (view p)); [reflexivity|].
    destruct (negb (truthy (trim (EditFormData.title (editFormData (view p))))));
      simpl; [reflexivity|].
    split; [|reflexivity]. intros [response|error] q; eexists; split; reflexivity.
Qed.

Lemma loading_step :
  forall (delivers : forall R : Type, rpc R -> outcome R -> Prop) (b b' : Browser),
    Forall finishes (inflight b) ->
    List.length (List.filter is_create (inflight b))
    = (if isLoading (view (page b)) then 1%nat else 0%nat) ->
    step delivers b b' ->
    Forall finishes (inflight b') /\
    List.length (List.filter is_create (inflight b'))
    = (if isLoading (view (page b')) then 1%nat else 0%nat).
Proof.
  intros delivers b b' Hfin Hcount Hstep.
  destruct Hstep as [b ev Hev|b pre post R call k o Hin Ho].
  - pose proof (handler_loading (page b) ev Hev) as H.
    unfold fire, dispatch.
    destruct (run (handler (view (page b)) ev) (page b)) as [p' [s|]]; simpl.
    + destruct H as [Hs Hl]. split.
      * apply Forall_app. split; [exact Hfin|]. constructor; [exact Hs|constructor].
      * rewrite filter_app, length_app. simpl.
        destruct (is_create s); simpl.
        -- destruct Hl as [L0 L1]. rewrite L0 in Hcount. rewrite L1, Hcount. reflexivity.
        -- rewrite Hl, Hcount. lia.
    + split; [exact Hfin|]. rewrite H. exact Hcount.
  - rewrite Hin in Hfin, Hcount.
    apply Forall_app in Hfin. destruct Hfin as [Hpre Hrest].
    inversion Hrest as [|s rest Hs Hpost]; subst.
    destruct (Hs o (page b)) as (q' & Hrun & Hl).
    unfold dispatch. cbn [page inflight sent]. rewrite Hrun. cbn [page inflight].
    split; [apply Forall_app; split; assumption|].
    rewrite filter_app, length_app in *. cbn [List.filter] in Hcount.
    destruct (is_create (Suspended call k)); simpl in Hcount.
    + rewrite Hl. destruct (isLoading (view (page b))); lia.
    + rewrite Hl. exact Hcount.
Qed.

(** X17.  On every page the event loop reaches, whatever the server answers:
    [isLoading] is set exactly while a create call waits for its answer, so
    the submit control is disabled exactly then; never more than one create
    call is waiting; and every waiting handler, once answered, runs to its end
    without sending another call. *)
Theorem one_create_call_in_flight :
  forall (delivers : forall R : Type, rpc R -> outcome R -> Prop) (b : Browser),
    reachable delivers b ->
    List.length (List.filter is_create (inflight b))
    = (if isLoading (view (page b)) then 1%nat else 0%nat) /\
    (submitDisabled (render (view (page b))) = true <->
     exists s, In s (inflight b) /\ is_create s = true) /\
    Forall finishes (inflight b).
Proof.
  intros delivers b Hb.
  assert (H : Forall finishes (inflight b) /\
              List.length (List.filter is_create (inflight b))
              = (if isLoading (view (page b)) then 1%nat else 0%nat)).
  { induction Hb as [|b b' _ IH Hstep].
    - split; [|reflexivity].
      constructor; [|constructor].
      intros [result|error] q; eexists; split; reflexivity.
    - destruct IH as [Hfin Hcount]. exact (loading_step delivers b b' Hfin Hcount Hstep). }
  destruct H as [Hfin Hcount]. split; [exact Hcount|]. split; [|exact Hfin].
  cbn [render submitDisabled]. split.
  - intros L. rewrite L in Hcount.
    destruct (List.filter is_create (inflight b)) as [|s rest] eqn:F;
      [discriminate Hcount|].
    exists s. apply filter_In. rewrite F. left. reflexivity.
  - intros (s & Hin & Hc).
    assert (Hf : In s (List.filter is_create (inflight b)))
      by (apply filter_In; split; assumption).
    destruct (isLoading (view (page b))); [reflexivity|].
    destruct (List.filter is_create (inflight b)); [destruct Hf|discriminate Hcount].
Qed.

(** After a title was typed and submitted, the create call is the one
    waiting. *)
Lemma one_create_call_in_flight_witness :
  List.length (List.filter is_create (inflight submitted_title))
  = (if isLoading (view (page submitted_title)) then 1%nat else 0%nat) /\
  (submitDisabled (render (view (page submitted_title))) = true <->
   exists s, In s (inflight submitted_title) /\ is_create s = true) /\
  Forall finishes (inflight submitted_title).
Proof.
  apply (one_create_call_in_flight any_answer submitted_title).
  apply mounted_then_submitted.
Defined.

(* ================================================================== *)
(** * Further properties: the ids the view names *)

Lemma handler_keeps_known :
  forall (P : Z -> Prop) (st : ViewState) (ev : ui_event),
    view_known P st -> offers (render st) ev ->
    task_keeps (delivers_known P) (view_known P) (request_known P) (handler st ev).
Proof.
  intros P st ev [Hlist Hedit] Hev.
  assert (Replace : forall i response,
            P (Todo.id response) ->
            forall st', view_known P st' ->
              view_known P (setTodos (List.map (fun t => if Todo.id t =? i
                                                         then response else t)) st')).
  { intros i response Hr st' [Hl He]. split; [|exact He].
    simpl. intros todo Hin. apply in_map_iff in Hin.
    destruct Hin as (t & <- & Ht). destruct (Todo.id t =? i); [exact Hr|].
    apply Hl. exact Ht. }
  destruct ev; simpl.
  - split; [|exact I]. intros st' H. exact H.
  - split; [|exact I]. intros st' H. exact H.
  - unfold handleSubmit.
    destruct (negb (truthy (trim (CreateTodoInput.title (formData st)))));
      [exact I|].
    simpl. split; [intros st' H; exact H|]. split; [exact I|].
    intros [response|error] Ho; simpl in *.
    + split.
      { intros st' [Hl He]. split; [|exact He]. simpl. intros t Ht.
        apply in_app_or in Ht. destruct Ht as [Ht|[<-|[]]]; [apply Hl; exact Ht|exact Ho]. }
      split; [intros st' H; exact H|]. split; [intros st' H; exact H|exact I].
    + split; [intros st' H; exact H|exact I].
  - split; [apply Hlist; apply shows_display_in_todos; exact Hev|].
    intros [response|error] Ho; simpl in *; [|exact I].
    split; [apply Replace; exact Ho|exact I].
  - split.
    { intros st' [Hl He]. split; [exact Hl|]. simpl. intros editing E.
      injection E as <-. apply Hlist. apply shows_display_in_todos. exact Hev. }
    split; [intros st' H; exact H|exact I].
  - split; [apply Hlist; apply shows_display_in_todos; exact Hev|].
    intros [result|error] _; simpl; [|exact I].
    split; [|exact I]. intros st' [Hl He]. split; [|exact He].
    simpl. intros t Ht. apply filter_In in Ht. apply Hl. exact (proj1 Ht).
  - split; [intros st' H; exact H|exact I].
  - split; [intros st' H; exact H|exact I].
  - unfold handleEditSubmit. destruct (editingTodo st) as [|editing] eqn:E; [exact I|].
    destruct (negb (truthy (trim (EditFormData.title (editFormData st)))));
      [exact I|].
    simpl. split; [apply Hedit; reflexivity|].
    intros [response|error] Ho; simpl in *; [|exact I].
    split; [apply Replace; exact Ho|].
    split.
    { intros st' [Hl He]. split; [exact Hl|]. simpl. intros e He'. discriminate He'. }
    split; [intros st' H; exact H|exact I].
  - split.
    { intros st' [Hl He]. split; [exact Hl|]. simpl. intros e He'. discriminate He'. }
    split; [intros st' H; exact H|exact I].
Qed.

(** X18.  The view names no id of its own making: if [P] holds of the id of
    every todo the server delivers (in the list it returns and in the
    responses to create and update calls), then on every page the event loop
    reaches [P] holds of the id of every update and delete call sent, of every
    todo in the list and of the todo being edited. *)
Theorem sent_ids_were_delivered :
  forall (P : Z -> Prop) (b : Browser),
    reachable (delivers_known P) b ->
    (forall r, In r (sent b) -> request_known P r) /\
    view_known P (view (page b)).
Proof.
  intros P b Hb.
  assert (H : browser_keeps (delivers_known P) (view_known P) (request_known P) b).
  { revert b Hb. apply reachable_keeps.
    - split; [intros todo []|]. intros editing E. discriminate E.
    - simpl. split; [exact I|]. intros [result|error] Ho; simpl in *; [|exact I].
      split; [|exact I]. intros st' [_ He]. split; [exact Ho|exact He].
    - apply handler_keeps_known. }
  destruct H as (Hview & _ & Hsent). split; [|exact Hview].
  apply Forall_forall. exact Hsent.
Qed.

(** The row of id 1 loaded, opened in the edit form and saved. *)
Lemma sent_ids_were_delivered_witness :
  (forall r, In r (sent saved_blank) -> request_known (fun i => i = 1) r) /\
  view_known (fun i => i = 1) (view (page saved_blank)).
Proof.
  apply (sent_ids_were_delivered (fun i => i = 1) saved_blank).
  assert (R1 : reachable (delivers_known (fun i => i = 1)) loaded_blank).
  { apply (@reachable_step _ mounted loaded_blank (reachable_mounted _)).
    apply (@step_answer (delivers_known (fun i => i = 1)) mounted [] []
             (list Todo.t) getTodos_query loadTodos_then (Resolved [blank_row]));
      [reflexivity|].
    simpl. intros todo [<-|[]]. reflexivity. }
  assert (R2 : reachable (delivers_known (fun i => i = 1))
                         (fire (EditClick blank_row) loaded_blank)).
  { apply (@reachable_step _ loaded_blank _ R1).
    apply (@step_event _ loaded_blank (EditClick blank_row)).
    vm_compute. exists (Display blank_row false None).
    split; [left; reflexivity|reflexivity]. }
  apply (@reachable_step _ _ saved_blank R2).
  apply (@step_event _ (fire (EditClick blank_row) loaded_blank) EditFormSubmit).
  vm_compute. exists (EditForm blank_row (lit "Original Title") []).
  split; [left; reflexivity|exact I].
Defined.

(* ================================================================== *)
(** * Further properties: an update followed by a delete *)

(** X19.  A delete after an update of the same id undoes all trace of the
    update in the table: the table and the success flag are the ones of the
    delete made alone. *)
Theorem deleteTodo_after_updateTodo :
  forall (now : Date) (input : UpdateTodoInput.t) (srv : Server),
    let i := DeleteTodoInput.mk (UpdateTodoInput.id input) in
    fst (deleteTodo i (snd (updateTodo now input srv))) = fst (deleteTodo i srv) /\
    todosTable (snd (deleteTodo i (snd (updateTodo now input srv))))
    = todosTable (snd (deleteTodo i srv)).
Proof.
  intros now input srv. cbv zeta.
  assert (T : todosTable (snd (updateTodo now input srv))
              = List.map (rewrite_row now input) (todosTable srv)).
  { rewrite updateTodo_unfold. destruct (List.filter _ (todosTable srv)); reflexivity. }
  rewrite !deleteTodo_unfold. cbn [fst snd DeleteTodoInput.id todosTable].
  rewrite T, filter_rewrite_rows, filter_not_rewrite_rows, length_map.
  split; [reflexivity|].
  apply map_rewrite_untouched. intros row. apply no_row_after_delete.
Qed.

(* ================================================================== *)
(** * Further properties: an update of a stored row *)

(** X20.  On a table with distinct ids, an update whose id is that of a stored
    row resolves to that row with each field present in the input replaced,
    each omitted field, the id and the creation time kept, and [updated_at]
    set to the clock's reading; afterwards the table holds the returned row
    and, of the rows it held, exactly those with another id; nothing is
    logged. *)
Theorem updateTodo_on_stored_row :
  forall (now : Date) (input : UpdateTodoInput.t) (srv : Server) (row : Todo.t),
    primary_key (todosTable srv) ->
    In row (todosTable srv) ->
    Todo.id row = UpdateTodoInput.id input ->
    exists row' srv',
      updateTodo now input srv = (Resolved row', srv') /\
      Todo.id row' = Todo.id row /\
      Todo.created_at row' = Todo.created_at row /\
      Todo.updated_at row' = now /\
      Todo.title row'
      = match UpdateTodoInput.title input with
        | defined v => v
        | undefined => Todo.title row
        end /\
      Todo.description row'
      = match UpdateTodoInput.description input with
        | defined v => v
        | undefined => Todo.description row
        end /\
      Todo.completed row'
      = match UpdateTodoInput.completed input with
        | defined v => v
        | undefined => Todo.completed row
        end /\
      (forall r, In r (todosTable srv') <->
                 r = row' \/ (In r (todosTable srv) /\ Todo.id r <> Todo.id row)) /\
      serverConsole srv' = serverConsole srv.
Proof.
  intros now input [tbl out] row Hpk Hin Hid. simpl in *.
  destruct (primary_key_split _ _ Hpk Hin) as (pre & post & -> & Hpre & Hpost).
  exists (updated_row now input row).
  exists (mkServer (pre ++ updated_row now input row :: post) out).
  split; [apply updateTodo_on_row; assumption|].
  repeat (split; [reflexivity|]).
  split; [|reflexivity].
  intros r. cbn [todosTable]. rewrite !in_app_iff. simpl. split.
  - intros [Hr|[Hr|Hr]].
    + right. split; [left; exact Hr|apply Hpre; exact Hr].
    + left. symmetry. exact Hr.
    + right. split; [right; right; exact Hr|apply Hpost; exact Hr].
  - intros [Hr|[[Hr|[Hr|Hr]] Hne]].
    + right. left. symmetry. exact Hr.
    + left. exact Hr.
    + exfalso. apply Hne. rewrite Hr. reflexivity.
    + right. right. exact Hr.
Qed.

(** The title-only update of the tests on a table of two rows. *)
Lemma updateTodo_on_stored_row_witness :
  exists row' srv',
    updateTodo 2000 title_only_input (mkServer [original_row; second_row] [])
    = (Resolved row', srv') /\
    Todo.id row' = Todo.id original_row /\
    Todo.created_at row' = Todo.created_at original_row /\
    Todo.updated_at row' = 2000 /\
    Todo.title row'
    = match UpdateTodoInput.title title_only_input with
      | defined v => v
      | undefined => Todo.title original_row
      end /\
    Todo.description row'
    = match UpdateTodoInput.description title_only_input with
      | defined v => v
      | undefined => Todo.description original_row
      end /\
    Todo.completed row'
    = match UpdateTodoInput.completed title_only_input with
      | defined v => v
      | undefined => Todo.completed original_row
      end /\
    (forall r, In r (todosTable srv') <->
               r = row' \/ (In r [original_row; second_row]
                            /\ Todo.id r <> Todo.id original_row)) /\
    serverConsole srv' = [].
Proof.
  apply (updateTodo_on_stored_row 2000 title_only_input
           (mkServer [original_row; second_row] []) original_row).
  - unfold primary_key. simpl.
    constructor; [intros [H|[]]; discriminate H|].
    constructor; [intros []|constructor].
  - left. reflexivity.
  - reflexivity.
Defined.
